(** * Catfish submission client: [App.jsx] and [api.js]

    A shallow embedding of the React client of the Catfish prototype.

    - [api.js] ([fetchUploads], [uploadImage]) builds the two HTTP requests.
    - [App.jsx] holds ten [useState] slots, two effects and three handlers
      ([refresh], [handleFileChange], [handleSubmit]).

    JavaScript's [async] functions are embedded as terms of a small
    interaction type [Async]: a term is the rest of a function body, and it
    stops at every [await fetch(...)] with the continuation to resume once the
    request settles.  Two interpreters run such terms: [exec] runs a body to
    its end against a given sequence of network outcomes (one activation, no
    interleaving), and [run] runs it up to the first [await], which is what
    the event loop of [step] needs to interleave user events and network
    completions. *)

From Stdlib Require Import List String Bool Arith ZArith Lia.
From Stdlib Require Import Ascii DecimalString.
Import ListNotations.
Local Open Scope string_scope.
Local Open Scope list_scope.
Local Open Scope nat_scope.

(* ================================================================== *)
(** * JavaScript values *)
(* ================================================================== *)

(** A value that may be [null] or [undefined]. *)
Inductive Nullable (A : Type) : Type :=
| JsNull
| JsUndefined
| JsValue (a : A).
Arguments JsNull {A}.
Arguments JsUndefined {A}.
Arguments JsValue {A} a.

(** [v ?? d] *)
Definition nullish {A : Type} (v : Nullable A) (d : A) : A :=
  match v with
  | JsValue a => a
  | JsNull | JsUndefined => d
  end.

(** Truthiness of a string: only the empty string is falsy. *)
Definition truthy (s : string) : bool :=
  match s with
  | EmptyString => false
  | String _ _ => true
  end.

(** [s || d] on strings. *)
Definition or_else (s d : string) : string := if truthy s then s else d.

(** [arr.slice(b, e)] for non-negative indices. *)
Definition slice {A : Type} (b e : nat) (arr : list A) : list A :=
  firstn (e - b) (skipn b arr).

(** [Array.from(x)] on an array-like value: the entries in order. *)
Definition Array_from {A : Type} (x : list A) : list A := x.

(** A [File] picked in the file input; the client never looks inside. *)
Record File : Type := mkFile { file_name : string; file_size : nat }.

(** A parsed JSON document, the result of [res.json()]. *)
#[local] Set Warnings "-register-all".
Inductive Json : Type :=
| JNull
| JBool (b : bool)
| JNum (n : Z)
| JStr (s : string)
| JArr (items : list Json)
| JObj (members : list (string * Json)).
#[local] Set Warnings "+register-all".

(** A settled promise: resolved with a value, or rejected with an error of
    which the client only reads [err.message]. *)
Inductive Settled (A : Type) : Type :=
| Resolved (a : A)
| Rejected (message : string).
Arguments Resolved {A} a.
Arguments Rejected {A} message.

(* ================================================================== *)
(** * HTTP: requests, [FormData], responses *)
(* ================================================================== *)

Inductive FormValue : Type :=
| FVFile (f : File)
| FVString (s : string).

(** A [FormData] body is the ordered list of its entries. *)
Definition FormData : Type := list (string * FormValue).

(** [formData.append(key, value)] *)
Definition append (fd : FormData) (key : string) (v : FormValue) : FormData :=
  fd ++ [(key, v)].

Inductive Method : Type := GET | POST.

Record Request : Type := mkRequest {
  req_method : Method;
  req_url : string;
  req_body : option FormData
}.

(** A [Response].  Its body is read at most once, as text or as JSON; both
    readings are promises of their own and are kept as such. *)
Record Response : Type := mkResponse {
  res_status : nat;
  res_text : Settled string;
  res_json : Settled Json
}.

(** [res.ok]: the status is in the range 200-299. *)
Definition res_ok (r : Response) : bool :=
  (200 <=? res_status r) && (res_status r <=? 299).
Arguments res_ok : simpl never.

(** What [fetch] settles with: a response (of any status), or a rejection
    when the request could not be carried out. *)
Definition FetchResult : Type := Settled Response.

(* ================================================================== *)
(** * Component state: the [useState] slots of [App] *)
(* ================================================================== *)

(** An object URL made by [URL.createObjectURL]. *)
Definition ObjectURL : Type := nat.

Record AppState : Type := mkAppState {
  activeTab : string;
  files : list File;
  previews : list ObjectURL;
  profileUrl : string;
  profileBio : string;
  conversationText : string;
  notes : string;
  uploads : Json;
  error : option string;
  isSubmitting : bool
}.

(** The initial values given to [useState] (App.jsx lines 14-23). *)
Definition initialState : AppState :=
  {| activeTab := "dashboard"; files := []; previews := [];
     profileUrl := ""; profileBio := ""; conversationText := ""; notes := "";
     uploads := JArr []; error := None; isSubmitting := false |}.

(** A call of one of the ten state setters. *)
Inductive Setter : Type :=
| setActiveTab (v : string)
| setFiles (v : list File)
| setPreviews (v : list ObjectURL)
| setProfileUrl (v : string)
| setProfileBio (v : string)
| setConversationText (v : string)
| setNotes (v : string)
| setUploads (v : Json)
| setError (v : option string)
| setSubmitting (v : bool).

Definition apply_setter (s : Setter) (st : AppState) : AppState :=
  match s with
  | setActiveTab v =>
      mkAppState v (files st) (previews st) (profileUrl st) (profileBio st)
        (conversationText st) (notes st) (uploads st) (error st) (isSubmitting st)
  | setFiles v =>
      mkAppState (activeTab st) v (previews st) (profileUrl st) (profileBio st)
        (conversationText st) (notes st) (uploads st) (error st) (isSubmitting st)
  | setPreviews v =>
      mkAppState (activeTab st) (files st) v (profileUrl st) (profileBio st)
        (conversationText st) (notes st) (uploads st) (error st) (isSubmitting st)
  | setProfileUrl v =>
      mkAppState (activeTab st) (files st) (previews st) v (profileBio st)
        (conversationText st) (notes st) (uploads st) (error st) (isSubmitting st)
  | setProfileBio v =>
      mkAppState (activeTab st) (files st) (previews st) (profileUrl st) v
        (conversationText st) (notes st) (uploads st) (error st) (isSubmitting st)
  | setConversationText v =>
      mkAppState (activeTab st) (files st) (previews st) (profileUrl st)
        (profileBio st) v (notes st) (uploads st) (error st) (isSubmitting st)
  | setNotes v =>
      mkAppState (activeTab st) (files st) (previews st) (profileUrl st)
        (profileBio st) (conversationText st) v (uploads st) (error st)
        (isSubmitting st)
  | setUploads v =>
      mkAppState (activeTab st) (files st) (previews st) (profileUrl st)
        (profileBio st) (conversationText st) (notes st) v (error st)
        (isSubmitting st)
  | setError v =>
      mkAppState (activeTab st) (files st) (previews st) (profileUrl st)
        (profileBio st) (conversationText st) (notes st) (uploads st) v
        (isSubmitting st)
  | setSubmitting v =>
      mkAppState (activeTab st) (files st) (previews st) (profileUrl st)
        (profileBio st) (conversationText st) (notes st) (uploads st) (error st) v
  end.

(** A fresh array is stored in [files] exactly by a [setFiles] call; the
    effect on [[files]] compares the array by identity. *)
Definition is_setFiles (s : Setter) : bool :=
  match s with setFiles _ => true | _ => false end.

(* ================================================================== *)
(** * Effects and the [Async] interaction type *)
(* ================================================================== *)

(** Calls on the submit event and its form. *)
Inductive DomCall : Type :=
| preventDefault      (* event.preventDefault() *)
| formReset.          (* event.target.reset()   *)

(** What an activation does to the outside, in order. *)
Inductive Effect : Type :=
| EffDom (c : DomCall)
| EffFetch (r : Request).

Definition is_fetch (e : Effect) : bool :=
  match e with EffFetch _ => true | EffDom _ => false end.

(** The rest of a function body. *)
Inductive Async (A : Type) : Type :=
| Return (a : A)
| Throw (message : string)
| Update (s : Setter) (k : Async A)
| Call (c : DomCall) (k : Async A)
| AwaitFetch (r : Request) (k : FetchResult -> Async A).
Arguments Return {A} a.
Arguments Throw {A} message.
Arguments Update {A} s k.
Arguments Call {A} c k.
Arguments AwaitFetch {A} r k.

Fixpoint bind {A B : Type} (p : Async A) (f : A -> Async B) : Async B :=
  match p with
  | Return a => f a
  | Throw m => Throw m
  | Update s k => Update s (bind k f)
  | Call c k => Call c (bind k f)
  | AwaitFetch r k => AwaitFetch r (fun o => bind (k o) f)
  end.

Notation "x <- p ;; q" := (bind p (fun x => q))
  (at level 61, p at next level, right associativity).
Notation "p ;; q" := (bind p (fun _ => q))
  (at level 61, right associativity).

(** [try { p } catch (err) { h err.message }] *)
Fixpoint try_catch {A : Type} (p : Async A) (h : string -> Async A) : Async A :=
  match p with
  | Return a => Return a
  | Throw m => h m
  | Update s k => Update s (try_catch k h)
  | Call c k => Call c (try_catch k h)
  | AwaitFetch r k => AwaitFetch r (fun o => try_catch (k o) h)
  end.

(** [try { p } finally { f }] *)
Fixpoint try_finally {A : Type} (p : Async A) (f : Async unit) : Async A :=
  match p with
  | Return a => f ;; Return a
  | Throw m => f ;; Throw m
  | Update s k => Update s (try_finally k f)
  | Call c k => Call c (try_finally k f)
  | AwaitFetch r k => AwaitFetch r (fun o => try_finally (k o) f)
  end.

Definition set (s : Setter) : Async unit := Update s (Return tt).
Definition call (c : DomCall) : Async unit := Call c (Return tt).

(** [await p] for a promise that has settled with [p]. *)
Definition await {A : Type} (p : Settled A) : Async A :=
  match p with
  | Resolved a => Return a
  | Rejected m => Throw m
  end.

(** [await fetch(url, { method, body })] *)
Definition fetch (url : string) (m : Method) (body : option FormData)
  : Async Response :=
  AwaitFetch (mkRequest m url body) (fun o => await o).

(* ================================================================== *)
(** * The client, parameterised by its one setting *)
(* ================================================================== *)

Section Client.

(** [import.meta.env.VITE_API_BASE], set at build time or left undefined. *)
Variable VITE_API_BASE : Nullable string.

(** ** api.js *)

Definition API_BASE : string := nullish VITE_API_BASE "http://127.0.0.1:8000".

Definition fetchUploads : Async Json :=
  res <- fetch (API_BASE ++ "/api/uploads")%string GET None ;;
  if negb (res_ok res) then Throw "Failed to load uploads"
  else await (res_json res).

(** The body built by lines 10-15 of api.js. *)
Definition uploadImage_formData (files : list File)
  (profileUrl notes profileBio conversationText : string) : FormData :=
  let formData : FormData := [] in
  let formData :=
    fold_left (fun fd file => append fd "files" (FVFile file)) files formData in
  let formData :=
    if truthy profileUrl
    then append formData "profile_url" (FVString profileUrl) else formData in
  let formData :=
    if truthy notes then append formData "notes" (FVString notes) else formData in
  let formData :=
    if truthy profileBio
    then append formData "profile_bio" (FVString profileBio) else formData in
  let formData :=
    if truthy conversationText
    then append formData "conversation_text" (FVString conversationText)
    else formData in
  formData.

Definition uploadImage (files : list File)
  (profileUrl notes profileBio conversationText : string) : Async Json :=
  let formData :=
    uploadImage_formData files profileUrl notes profileBio conversationText in
  res <- fetch (API_BASE ++ "/api/uploads")%string POST (Some formData) ;;
  if negb (res_ok res) then
    text <- await (res_text res) ;;
    Throw (or_else text "Upload failed")
  else await (res_json res).

(** ** App.jsx *)

(** [tabs]: the ids and labels of the bottom navigation. *)
Definition tabs : list (string * string) :=
  [("dashboard", "Dashboard"); ("recent", "Recent");
   ("chat", "Chat"); ("profile", "Profile")].

(** [refresh] (lines 35-42). *)
Definition refresh : Async unit :=
  try_catch
    (data <- fetchUploads ;;
     set (setUploads data))
    (fun message => set (setError (Some message))).

(** The change event of the file input: [event.target.files]. *)
Record ChangeEvent : Type := mkChangeEvent {
  target_files : Nullable (list File)
}.

(** [handleFileChange] (lines 44-47). *)
Definition handleFileChange (event : ChangeEvent) : Async unit :=
  let selected := Array_from (nullish (target_files event) []) in
  set (setFiles (slice 0 5 selected)).

(** [handleSubmit] (lines 49-72).  The handler is a closure of the render it
    was created in: [st] is that render's state, read for [files] and the four
    text fields; the setters act on the state current when they are called. *)
Definition handleSubmit (st : AppState) : Async unit :=
  call preventDefault ;;
  if List.length (files st) =? 0 then
    set (setError (Some "Add at least one image"))
  else
    set (setSubmitting true) ;;
    set (setError None) ;;
    try_finally
      (try_catch
         (_ <- uploadImage (files st) (profileUrl st) (notes st)
                 (profileBio st) (conversationText st) ;;
          set (setFiles []) ;;
          set (setProfileUrl "") ;;
          set (setProfileBio "") ;;
          set (setConversationText "") ;;
          set (setNotes "") ;;
          call formReset ;;
          refresh ;;
          set (setActiveTab "recent"))
         (fun message => set (setError (Some message))))
      (set (setSubmitting false)).

(** The error paragraph of [DashboardView] (line 194), present in the page
    when the dashboard tab is the active one (line 78) and [error] is truthy. *)
Definition shown_error (st : AppState) : option string :=
  if String.eqb (activeTab st) "dashboard" then
    match error st with
    | Some m => if truthy m then Some m else None
    | None => None
    end
  else None.

(** The submit button's [disabled] attribute (line 189). *)
Definition submit_disabled (st : AppState) : bool := isSubmitting st.

(* ================================================================== *)
(** * Running one activation to its end *)
(* ================================================================== *)

(** What an activation has done so far: the component state, the effects in
    order, and whether [files] was given a fresh array. *)
Record Config : Type := mkConfig {
  cstate : AppState;
  clog : list Effect;
  cfresh : bool
}.

Definition start (st : AppState) : Config := mkConfig st [] false.

Definition do_update (s : Setter) (c : Config) : Config :=
  mkConfig (apply_setter s (cstate c)) (clog c) (cfresh c || is_setFiles s).

Definition do_effect (e : Effect) (c : Config) : Config :=
  mkConfig (cstate c) (clog c ++ [e]) (cfresh c).

(** [exec p net i c] runs [p] to its end; the [n]-th request it issues
    (counting from [i]) settles with [net n], and nothing else happens in
    between. *)
Fixpoint exec {A : Type} (p : Async A) (net : nat -> FetchResult) (i : nat)
  (c : Config) : Config * Settled A :=
  match p with
  | Return a => (c, Resolved a)
  | Throw m => (c, Rejected m)
  | Update s k => exec k net i (do_update s c)
  | Call d k => exec k net i (do_effect (EffDom d) c)
  | AwaitFetch r k => exec (k (net i)) net (S i) (do_effect (EffFetch r) c)
  end.

(** The requests among the effects. *)
Definition requests (l : list Effect) : list Request :=
  flat_map (fun e => match e with EffFetch r => [r] | EffDom _ => [] end) l.

(** A network that answers the first request with [o1] and every later one
    with [o2]. *)
Definition answers (o1 o2 : FetchResult) : nat -> FetchResult :=
  fun n => match n with 0 => o1 | S _ => o2 end.

(* ================================================================== *)
(** * Object URLs and the effect on [[files]] *)
(* ================================================================== *)

(** The browser's registry of object URLs: the ones created and not yet
    revoked, and the next one it will hand out. *)
Record UrlStore : Type := mkUrlStore {
  live : list ObjectURL;
  next_url : ObjectURL
}.

Definition createObjectURL (s : UrlStore) (f : File) : ObjectURL * UrlStore :=
  (next_url s, mkUrlStore (live s ++ [next_url s]) (S (next_url s))).

Definition revokeObjectURL (s : UrlStore) (u : ObjectURL) : UrlStore :=
  mkUrlStore (filter (fun v => negb (v =? u)) (live s)) (next_url s).

(** [files.map((file) => URL.createObjectURL(file))] *)
Fixpoint map_createObjectURL (fs : list File) (s : UrlStore)
  : list ObjectURL * UrlStore :=
  match fs with
  | [] => ([], s)
  | f :: fs' =>
      let (u, s1) := createObjectURL s f in
      let (us, s2) := map_createObjectURL fs' s1 in
      (u :: us, s2)
  end.

(** [urls.forEach((url) => URL.revokeObjectURL(url))] *)
Definition forEach_revokeObjectURL (urls : list ObjectURL) (s : UrlStore)
  : UrlStore :=
  fold_left revokeObjectURL urls s.

(* ================================================================== *)
(** * The page as a transition system *)
(* ================================================================== *)

(** An activation stopped at an [await]: the request it waits for and the
    rest of its body. *)
Record Suspended : Type := mkSuspended {
  waiting_for : Request;
  resume : FetchResult -> Async unit
}.

Definition is_create (s : Suspended) : bool :=
  match req_method (waiting_for s) with POST => true | GET => false end.

(** The page between two turns of the event loop: React has rendered the
    last state update and flushed its effects. *)
Record World : Type := mkWorld {
  app : AppState;
  store : UrlStore;
  cleanup : list ObjectURL;
  pending : list Suspended;
  log : list Effect
}.

(** [run p c] runs [p] up to its first [await]. *)
Fixpoint run (p : Async unit) (c : Config) : Config * option Suspended :=
  match p with
  | Return _ => (c, None)
  | Throw _ => (c, None)
  | Update s k => run k (do_update s c)
  | Call d k => run k (do_effect (EffDom d) c)
  | AwaitFetch r k => (do_effect (EffFetch r) c, Some (mkSuspended r k))
  end.

(** The function returned by the effect of lines 29-33, as registered by its
    last run: it revokes the URLs that run created. *)
Definition files_cleanup (w : World) : World :=
  mkWorld (app w) (forEach_revokeObjectURL (cleanup w) (store w)) (cleanup w)
    (pending w) (log w).

(** The body of the effect of lines 29-33. *)
Definition files_effect (w : World) : World :=
  let (urls, s) := map_createObjectURL (files (app w)) (store w) in
  mkWorld (apply_setter (setPreviews urls) (app w)) s urls (pending w) (log w).

(** After a render: when [files] holds another array than at the last
    render, the previous cleanup runs and then the effect. *)
Definition commit (fresh : bool) (w : World) : World :=
  if fresh then files_effect (files_cleanup w) else w.

(** One turn of the event loop: run [p] up to its first [await], park what
    is left of it, render and flush the effects. *)
Definition turn (p : Async unit) (w : World) : World :=
  let (c, s) := run p (mkConfig (app w) (log w) false) in
  commit (cfresh c)
    (mkWorld (cstate c) (store w) (cleanup w)
       (match s with Some x => pending w ++ [x] | None => pending w end)
       (clog c)).

Definition unmounted : World :=
  mkWorld initialState (mkUrlStore [] 0) [] [] [].

(** Mounting [App] runs its two effects in order: [refresh()] (lines 25-27),
    then the effect on [[files]]. *)
Definition mounted : World := files_effect (turn refresh unmounted).

Inductive Field : Type :=
| FProfileUrl | FProfileBio | FConversationText | FNotes.

(** The [onChange] handlers of the four text inputs (lines 153-179). *)
Definition field_setter (f : Field) (v : string) : Setter :=
  match f with
  | FProfileUrl => setProfileUrl v
  | FProfileBio => setProfileBio v
  | FConversationText => setConversationText v
  | FNotes => setNotes v
  end.

Inductive Event : Type :=
| UserPicksFiles (event : ChangeEvent)
| UserTypes (f : Field) (value : string)
| UserClicksTab (id : string)
| UserSubmits
| RequestSettles (n : nat) (o : FetchResult).

(** [DashboardView], with the form, is in the page only on this tab. *)
Definition on_dashboard (st : AppState) : bool :=
  String.eqb (activeTab st) "dashboard".

Definition remove_nth {A : Type} (n : nat) (l : list A) : list A :=
  firstn n l ++ skipn (S n) l.

(** [step w e] is [None] when the page cannot receive [e] in [w]: the form
    is not in the page, the submit button is disabled, the tab does not
    exist, or no such request is in flight. *)
Definition step (w : World) (e : Event) : option World :=
  match e with
  | UserPicksFiles event =>
      if on_dashboard (app w) then Some (turn (handleFileChange event) w)
      else None
  | UserTypes f v =>
      if on_dashboard (app w) then Some (turn (set (field_setter f v)) w)
      else None
  | UserClicksTab id =>
      if existsb (fun t => String.eqb (fst t) id) tabs
      then Some (turn (set (setActiveTab id)) w)
      else None
  | UserSubmits =>
      if on_dashboard (app w) && negb (submit_disabled (app w))
      then Some (turn (handleSubmit (app w)) w)
      else None
  | RequestSettles n o =>
      match nth_error (pending w) n with
      | Some s =>
          Some (turn (resume s o)
                  (mkWorld (app w) (store w) (cleanup w)
                     (remove_nth n (pending w)) (log w)))
      | None => None
      end
  end.

Fixpoint steps (w : World) (es : list Event) : option World :=
  match es with
  | [] => Some w
  | e :: es' =>
      match step w e with
      | Some w' => steps w' es'
      | None => None
      end
  end.

Definition reachable (w : World) : Prop :=
  exists es, steps mounted es = Some w.

(** The create requests in flight. *)
Definition creates_in_flight (w : World) : nat :=
  List.length (filter is_create (pending w)).

(** [formData.getAll(key)] *)
Definition getAll (key : string) (fd : FormData) : list FormValue :=
  map snd (filter (fun e => String.eqb (fst e) key) fd).

(** The state an activation of [p] ends in, started in [st]. *)
Definition after {A : Type} (p : Async A) (net : nat -> FetchResult)
  (st : AppState) : AppState :=
  cstate (fst (exec p net 0 (start st))).

(** What the promise of [p] settles with when its requests are answered by
    [net] from the [i]-th answer on. *)
Definition settles {A : Type} (p : Async A) (net : nat -> FetchResult)
  (i : nat) : Settled A :=
  snd (exec p net i (start initialState)).

(* ================================================================== *)
(** * Vocabulary of the statements *)
(* ================================================================== *)

(** The two requests of the client. *)
Definition list_request : Request :=
  mkRequest GET (API_BASE ++ "/api/uploads")%string None.

Definition create_request (st : AppState) : Request :=
  mkRequest POST (API_BASE ++ "/api/uploads")%string
    (Some (uploadImage_formData (files st) (profileUrl st) (notes st)
             (profileBio st) (conversationText st))).

(** The setter calls of lines 59-63. *)
Definition clear_form (st : AppState) : AppState :=
  apply_setter (setNotes "")
    (apply_setter (setConversationText "")
       (apply_setter (setProfileBio "")
          (apply_setter (setProfileUrl "")
             (apply_setter (setFiles []) st)))).

(** A create request fails: [fetch] rejects, or the response is not a 2xx. *)
Definition create_failed (o : FetchResult) : bool :=
  match o with
  | Rejected _ => true
  | Resolved res => negb (res_ok res)
  end.

(** The message the specification expects in the error slot after a failed
    create, in its words: the server's error body text when there is one and
    it is non-empty, else the generic fallback. *)
Definition spec_failure_message (o : FetchResult) : string :=
  match o with
  | Resolved res =>
      match res_text res with
      | Resolved text => or_else text "Upload failed"
      | Rejected _ => "Upload failed"
      end
  | Rejected _ => "Upload failed"
  end.

(** The live URLs are the ones the registered cleanup will revoke, one per
    selected file, all handed out already. *)
Definition urls_ok (w : World) : Prop :=
  live (store w) = cleanup w
  /\ List.length (cleanup w) = List.length (files (app w))
  /\ Forall (fun u => u < next_url (store w)) (live (store w)).

Definition writes_submitting (s : Setter) : bool :=
  match s with setSubmitting _ => true | _ => false end.

Definition is_post (e : Effect) : bool :=
  match e with
  | EffFetch r => match req_method r with POST => true | GET => false end
  | EffDom _ => false
  end.

(** The create requests issued so far. *)
Definition posts (l : list Effect) : nat := List.length (filter is_post l).
Arguments posts : simpl never.

(** A body that runs to its end without awaiting. *)
Inductive straight : Async unit -> Prop :=
| straight_return a : straight (Return a)
| straight_throw m : straight (Throw m)
| straight_update s k : straight k -> straight (Update s k)
| straight_call d k : straight k -> straight (Call d k).

(** A body that, besides, leaves the submitting flag alone. *)
Inductive quiet : Async unit -> Prop :=
| quiet_return a : quiet (Return a)
| quiet_throw m : quiet (Throw m)
| quiet_update s k :
    writes_submitting s = false -> quiet k -> quiet (Update s k)
| quiet_call d k : quiet k -> quiet (Call d k).

(** What is left of a submit once its create request is out: it issues no
    further create request, and it lowers the submitting flag only on a
    stretch that runs to the end. *)
Inductive closing : Async unit -> Prop :=
| closing_straight p : straight p -> closing p
| closing_update s k :
    writes_submitting s = false -> closing k -> closing (Update s k)
| closing_call d k : closing k -> closing (Call d k)
| closing_await r k :
    req_method r = GET -> (forall o, closing (k o)) ->
    closing (AwaitFetch r k).

Create HintDb client.
#[local] Hint Constructors straight quiet closing : client.

(** A suspended [refresh()] of the mount effect. *)
Definition mount_kind (s : Suspended) : Prop :=
  req_method (waiting_for s) = GET /\ forall o, quiet (resume s o).

(** A suspended [handleSubmit]. *)
Definition submit_kind (s : Suspended) : Prop :=
  forall o, closing (resume s o).

(** [pend_inv b l]: the suspended activations [l] are [refresh()] calls of
    the mount effect and, when [b] is set, exactly one [handleSubmit]. *)
Inductive pend_inv : bool -> list Suspended -> Prop :=
| pend_nil : pend_inv false []
| pend_mount s l b : mount_kind s -> pend_inv b l -> pend_inv b (s :: l)
| pend_submit s l : submit_kind s -> pend_inv false l -> pend_inv true (s :: l).

Definition submit_ok (w : World) : Prop :=
  exists b, pend_inv b (pending w)
            /\ (b = true -> isSubmitting (app w) = true).

(* ================================================================== *)
(** * [RecentView] *)
(* ================================================================== *)

(** An upload of the list, with the fields [RecentView] reads (lines
    216-247).  [risk_score], [signals] and [advice] may be missing or null:
    the view reads them through [??] and [?.]. *)
Record Signal : Type := mkSignal {
  signal_type : string;
  signal_severity : string
}.

Record Upload : Type := mkUpload {
  upload_id : Z;
  upload_filename : string;
  upload_created_at : string;
  upload_risk_score : Nullable Z;
  upload_signals : Nullable (list Signal);
  upload_advice : Nullable (list string)
}.

Inductive Key : Type :=
| KeyNumber (n : Z)
| KeyString (s : string).

(** What a component draws: text, a number, or an element with its key and
    children (class names are left out).  A child that is [false], [null]
    or [undefined] draws nothing and is not in the list; a number, zero
    included, is drawn. *)
#[local] Set Warnings "-register-all".
Inductive Node : Type :=
| Text (s : string)
| Number (n : Z)
| Element (tag : string) (key : option Key) (children : list Node).
#[local] Set Warnings "+register-all".

(** [arr.map((x, idx) => f idx x)] *)
Definition map_idx {A B : Type} (f : nat -> A -> B) (arr : list A) : list B :=
  map (fun p => f (fst p) (snd p)) (combine (seq 0 (List.length arr)) arr).

(** [`${n}`] for an array index. *)
Definition index_to_string (n : nat) : string :=
  NilEmpty.string_of_uint (Nat.to_uint n).

(** The key of a signal's item (line 230). *)
Definition signal_key (idx : nat) (signal : Signal) : Key :=
  KeyString (signal_type signal ++ "-" ++ index_to_string idx)%string.

(** Lines 227-237: [upload.signals?.length ? <ul>...</ul> : <p>...</p>]. *)
Definition signals_section (upload : Upload) : Node :=
  match upload_signals upload with
  | JsValue signals =>
      if List.length signals =? 0 then
        Element "p" None [Text "No strong signals."]
      else
        Element "ul" None
          (map_idx
             (fun idx signal =>
                Element "li" (Some (signal_key idx signal))
                  [Element "span" None [Text (signal_type signal)];
                   Text " · ";
                   Text (signal_severity signal)])
             (slice 0 3 signals))
  | JsNull | JsUndefined => Element "p" None [Text "No strong signals."]
  end.

(** Lines 238-247: [upload.advice?.length && <div>...</div>].  With no
    advice the left operand is [undefined]; with an empty array it is the
    number 0, which is what [&&] then yields. *)
Definition advice_section (upload : Upload) : list Node :=
  match upload_advice upload with
  | JsValue advice =>
      if List.length advice =? 0 then [Number 0]
      else
        [Element "div" None
           [Element "p" None [Text "Advice"];
            Element "ul" None
              (map (fun tip => Element "li" (Some (KeyString tip)) [Text tip])
                 (slice 0 2 advice))]]
  | JsNull | JsUndefined => []
  end.

(** One card (lines 216-248); [toLocaleString] stands for
    [new Date(created_at).toLocaleString()]. *)
Definition upload_card (toLocaleString : string -> string) (upload : Upload)
  : Node :=
  Element "article" (Some (KeyNumber (upload_id upload)))
    ([Element "div" None
        [Element "div" None
           [Element "p" None [Text (upload_filename upload)];
            Element "p" None
              [Text (toLocaleString (upload_created_at upload))]];
         Element "div" None
           [Element "p" None [Text "Risk"];
            Element "p" None
              [Number (nullish (upload_risk_score upload) 0%Z)]]];
      signals_section upload]
     ++ advice_section upload).

(** [RecentView] (lines 209-253). *)
Definition RecentView_render (toLocaleString : string -> string)
  (uploads : list Upload) : Node :=
  Element "div" None
    ([Element "h2" None [Text "Recent checks"]]
     ++ (if List.length uploads =? 0
         then [Element "p" None [Text "No reports yet."]] else [])
     ++ [Element "div" None (map (upload_card toLocaleString) uploads)]).

(** The last character of a string (a space for the empty string). *)
Definition last_ascii (s : string) : ascii :=
  last (list_ascii_of_string s) " "%char.

(** The children of an element, and the keys among a list of nodes. *)
Definition children_of (n : Node) : list Node :=
  match n with
  | Element _ _ children => children
  | Text _ | Number _ => []
  end.

Definition keys_of (l : list Node) : list Key :=
  flat_map (fun n => match n with
                     | Element _ (Some k) _ => [k]
                     | _ => []
                     end) l.

(* ================================================================== *)
(** * Views, navigation and the discipline of the page *)
(* ================================================================== *)

(** The views [App] puts in the page (lines 78-99): each of the four
    conditionals contributes its view when its test holds. *)
Inductive View : Type :=
| DashboardView
| RecentView
| PlaceholderView (title message : string).

Definition App_views (st : AppState) : list View :=
  (if String.eqb (activeTab st) "dashboard" then [DashboardView] else [])
  ++ (if String.eqb (activeTab st) "recent" then [RecentView] else [])
  ++ (if String.eqb (activeTab st) "chat"
      then [PlaceholderView "Chat" "Secure messaging coming soon."] else [])
  ++ (if String.eqb (activeTab st) "profile"
      then [PlaceholderView "Profile"
              "Magic-link login + billing will live here."]
      else []).

(** [BottomNav] (lines 265-280): one button per tab, in order, with its
    label and whether it is drawn as the active one. *)
Definition BottomNav (st : AppState) : list (string * bool) :=
  map (fun tab => (snd tab, String.eqb (activeTab st) (fst tab))) tabs.

(** The value of one of the four text inputs. *)
Definition field_value (f : Field) (st : AppState) : string :=
  match f with
  | FProfileUrl => profileUrl st
  | FProfileBio => profileBio st
  | FConversationText => conversationText st
  | FNotes => notes st
  end.

(** [within P Q p]: on every path of [p], every state update is one of [P]
    and every request one of [Q]. *)
Inductive within (P : Setter -> Prop) (Q : Request -> Prop)
  : Async unit -> Prop :=
| within_return a : within P Q (Return a)
| within_throw m : within P Q (Throw m)
| within_update s k : P s -> within P Q k -> within P Q (Update s k)
| within_call d k : within P Q k -> within P Q (Call d k)
| within_await r k :
    Q r -> (forall o, within P Q (k o)) -> within P Q (AwaitFetch r k).

(** The state updates of the handlers: a selection of at most five files, a
    tab that exists, and never the previews (those belong to the effect). *)
Definition page_setter (s : Setter) : Prop :=
  match s with
  | setFiles v => List.length v <= 5
  | setActiveTab v => In v (map fst tabs)
  | setPreviews _ => False
  | _ => True
  end.

(** The requests of the page: the list request, or a create request built
    by [uploadImage] from one to five files. *)
Definition page_request (r : Request) : Prop :=
  r = list_request
  \/ exists fs pu n pb ct,
       r = mkRequest POST (API_BASE ++ "/api/uploads")%string
             (Some (uploadImage_formData fs pu n pb ct))
       /\ 1 <= List.length fs <= 5.

Definition state_ok (st : AppState) : Prop :=
  List.length (files st) <= 5 /\ In (activeTab st) (map fst tabs).

Definition page_ok (w : World) : Prop :=
  state_ok (app w)
  /\ Forall page_request (requests (log w))
  /\ Forall (fun s => forall o, within page_setter page_request (resume s o))
       (pending w)
  /\ previews (app w) = cleanup w.

(** What is left of a submit lowers the submitting flag before it ends, and
    touches it no more after that. *)
Inductive lowering : Async unit -> Prop :=
| lowering_now k : quiet k -> lowering (Update (setSubmitting false) k)
| lowering_update s k : lowering k -> lowering (Update s k)
| lowering_call d k : lowering k -> lowering (Call d k)
| lowering_await r k :
    (forall o, lowering (k o)) -> lowering (AwaitFetch r k).

(** [pend_flag b l]: as [pend_inv], and the suspended [handleSubmit] is one
    that lowers the flag. *)
Inductive pend_flag : bool -> list Suspended -> Prop :=
| flag_nil : pend_flag false []
| flag_mount s l b : mount_kind s -> pend_flag b l -> pend_flag b (s :: l)
| flag_submit s l :
    submit_kind s -> (forall o, lowering (resume s o)) ->
    pend_flag false l -> pend_flag true (s :: l).

Definition flag_ok (w : World) : Prop :=
  exists b, pend_flag b (pending w) /\ isSubmitting (app w) = b.

#[local] Hint Constructors within lowering : client.

(** The events by which the user edits the form or moves between tabs. *)
Definition is_edit (e : Event) : bool :=
  match e with
  | UserPicksFiles _ | UserTypes _ _ | UserClicksTab _ => true
  | UserSubmits | RequestSettles _ _ => false
  end.

(** The list a response to the list request brings, if it brings one. *)
Definition list_outcome (o : FetchResult) : option Json :=
  match o with
  | Resolved res =>
      if res_ok res then
        match res_json res with
        | Resolved data => Some data
        | Rejected _ => None
        end
      else None
  | Rejected _ => None
  end.

(** An activation waiting for the list: once the request settles it runs to
    its end, and [uploads] is the list brought, or as it was. *)
Definition get_kind (s : Suspended) : Prop :=
  req_method (waiting_for s) = GET
  /\ forall o c,
       snd (run (resume s o) c) = None
       /\ uploads (cstate (fst (run (resume s o) c)))
          = match list_outcome o with
            | Some data => data
            | None => uploads (cstate c)
            end.

(** An activation waiting for the create request: whatever the answer, it
    leaves [uploads] alone, and if it stops again it waits for the list. *)
Definition post_kind (s : Suspended) : Prop :=
  req_method (waiting_for s) = POST
  /\ forall o c,
       uploads (cstate (fst (run (resume s o) c))) = uploads (cstate c)
       /\ match snd (run (resume s o) c) with
          | Some s' => get_kind s'
          | None => True
          end.

Definition uploads_ok (w : World) : Prop :=
  Forall (fun s => get_kind s \/ post_kind s) (pending w).

(* ================================================================== *)
(** * Sample inputs *)
(* ================================================================== *)

(** A form with two images picked and a profile link typed. *)
Definition two_images : AppState :=
  apply_setter (setProfileUrl "https://example.com/@alice")
    (apply_setter (setFiles [mkFile "a.png" 10; mkFile "b.png" 20])
       initialState).

(** A server that answers every request with a 500 and a body. *)
Definition server_error : nat -> FetchResult :=
  fun _ => Resolved (mkResponse 500 (Resolved "disk full")
                       (Rejected "Unexpected token d in JSON"))%string.

(** A network that carries no request. *)
Definition offline : nat -> FetchResult :=
  fun _ => Rejected "Failed to fetch".

(** A server that accepts the create request and lists one upload. *)
Definition server_up : nat -> FetchResult :=
  answers
    (Resolved (mkResponse 201 (Resolved "") (Resolved (JObj []))))
    (Resolved (mkResponse 200 (Resolved "")
                 (Resolved (JArr [JObj [("filename", JStr "a.png")]])))).

(** The page the events [es] lead to from the mounted page. *)
Definition page_after (es : list Event) : World :=
  match steps mounted es with
  | Some w => w
  | None => mounted
  end.

Definition seven_files : list File :=
  map (fun n => mkFile "img.png" n) (seq 0 7).

Definition pick_seven : list Event :=
  [UserPicksFiles (mkChangeEvent (JsValue seven_files))].

Definition pick_and_submit : list Event :=
  [UserPicksFiles (mkChangeEvent (JsValue [mkFile "a.png" 10]));
   UserSubmits].

(** The list request of the mount effect fails while a submit is under way;
    the create request and the list request after it then succeed, and the
    user goes back to the dashboard. *)
Definition late_mount_failure : list Event :=
  pick_and_submit
  ++ [RequestSettles 0 (Rejected "Failed to fetch");
      RequestSettles 0
        (Resolved (mkResponse 201 (Resolved "") (Resolved (JObj []))));
      RequestSettles 0
        (Resolved (mkResponse 200 (Resolved "[]") (Resolved (JArr []))));
      UserClicksTab "dashboard"].

(** A server that accepts the create request and then fails the list
    request. *)
Definition server_list_down : nat -> FetchResult :=
  answers
    (Resolved (mkResponse 201 (Resolved "") (Resolved (JObj []))))
    (Resolved (mkResponse 503 (Resolved "") (Rejected "Unexpected end"))).

(** As [server_up], with another body in the create response. *)
Definition server_up_other_body : nat -> FetchResult :=
  answers
    (Resolved (mkResponse 200 (Resolved "") (Resolved (JArr []))))
    (Resolved (mkResponse 200 (Resolved "")
                 (Resolved (JArr [JObj [("filename", JStr "a.png")]])))).

Definition pick_one : list Event :=
  [UserPicksFiles (mkChangeEvent (JsValue [mkFile "a.png" 10]))].

(** The answer to the list request of the mount effect. *)
Definition list_arrives : Event :=
  RequestSettles 0
    (Resolved (mkResponse 200 (Resolved "")
                 (Resolved (JArr [JObj [("filename", JStr "old.png")]])))).

(* ================================================================== *)
(** * Properties of [api.js] *)
(* ================================================================== *)

Lemma truthy_nonempty (s : string) : truthy s = true <-> s <> "".
Proof.
  destruct s; simpl; split; intro H; congruence.
Qed.

Lemma append_files_fold (fs : list File) (acc : FormData) :
  fold_left (fun fd file => append fd "files" (FVFile file)) fs acc
  = acc ++ map (fun f => ("files", FVFile f)) fs.
Proof.
  revert acc; induction fs as [|f fs IH]; intro acc; simpl.
  - now rewrite app_nil_r.
  - rewrite IH. unfold append. now rewrite <- app_assoc.
Qed.

Lemma getAll_app (key : string) (a b : FormData) :
  getAll key (a ++ b) = getAll key a ++ getAll key b.
Proof. unfold getAll. now rewrite filter_app, map_app. Qed.

Lemma getAll_files_parts (fs : list File) :
  getAll "files" (map (fun f => ("files", FVFile f)) fs) = map FVFile fs.
Proof.
  induction fs as [|f fs IH]; [reflexivity|].
  unfold getAll in *. simpl. now rewrite IH.
Qed.

Lemma getAll_other_parts (key : string) (fs : list File) :
  String.eqb "files" key = false ->
  getAll key (map (fun f => ("files", FVFile f)) fs) = [].
Proof.
  intro H. unfold getAll.
  induction fs as [|f fs IH]; [reflexivity|].
  cbn [map filter fst]. rewrite H. exact IH.
Qed.

(** The body in one piece: the file parts, then the text parts that are
    present, in the order of the source. *)
Lemma uploadImage_formData_eq (fs : list File) (pu n pb ct : string) :
  uploadImage_formData fs pu n pb ct
  = map (fun f => ("files", FVFile f)) fs
    ++ (if truthy pu then [("profile_url", FVString pu)] else [])
    ++ (if truthy n then [("notes", FVString n)] else [])
    ++ (if truthy pb then [("profile_bio", FVString pb)] else [])
    ++ (if truthy ct then [("conversation_text", FVString ct)] else []).
Proof.
  unfold uploadImage_formData, append. rewrite append_files_fold. simpl.
  destruct (truthy pu), (truthy n), (truthy pb), (truthy ct); simpl;
    repeat rewrite <- app_assoc; simpl; repeat rewrite app_nil_r; reflexivity.
Qed.

Lemma part_present_iff (v : string) :
  (if truthy v then [FVString v] else []) <> [] <-> v <> "".
Proof.
  rewrite <- truthy_nonempty. destruct (truthy v); split; intro H;
    congruence.
Qed.

(** C9: [uploadImage] issues one POST whose body holds every selected file
    under the key [files], in order, and holds a part for [profile_url],
    [notes], [profile_bio] or [conversation_text] if and only if that
    argument is non-empty; an empty string is left out, not sent as an empty
    part. *)
Theorem uploadImage_parts (fs : list File) (pu n pb ct : string) :
  let fd := uploadImage_formData fs pu n pb ct in
  (exists k,
      uploadImage fs pu n pb ct
      = AwaitFetch (mkRequest POST (API_BASE ++ "/api/uploads")%string (Some fd)) k)
  /\ getAll "files" fd = map FVFile fs
  /\ getAll "profile_url" fd = (if truthy pu then [FVString pu] else [])
  /\ getAll "notes" fd = (if truthy n then [FVString n] else [])
  /\ getAll "profile_bio" fd = (if truthy pb then [FVString pb] else [])
  /\ getAll "conversation_text" fd = (if truthy ct then [FVString ct] else [])
  /\ (getAll "profile_url" fd <> [] <-> pu <> "")
  /\ (getAll "notes" fd <> [] <-> n <> "")
  /\ (getAll "profile_bio" fd <> [] <-> pb <> "")
  /\ (getAll "conversation_text" fd <> [] <-> ct <> "")
  /\ List.length fd
     = List.length fs
       + List.length (filter truthy [pu; n; pb; ct]).
Proof.
  intro fd.
  assert (Hf : getAll "files" fd = map FVFile fs).
  { subst fd. rewrite uploadImage_formData_eq, !getAll_app, getAll_files_parts.
    destruct (truthy pu), (truthy n), (truthy pb), (truthy ct);
      simpl; now rewrite app_nil_r. }
  assert (Hpu : getAll "profile_url" fd = (if truthy pu then [FVString pu] else [])).
  { subst fd. rewrite uploadImage_formData_eq, !getAll_app.
    rewrite getAll_other_parts by reflexivity.
    destruct (truthy pu), (truthy n), (truthy pb), (truthy ct); reflexivity. }
  assert (Hn : getAll "notes" fd = (if truthy n then [FVString n] else [])).
  { subst fd. rewrite uploadImage_formData_eq, !getAll_app.
    rewrite getAll_other_parts by reflexivity.
    destruct (truthy pu), (truthy n), (truthy pb), (truthy ct); reflexivity. }
  assert (Hpb : getAll "profile_bio" fd = (if truthy pb then [FVString pb] else [])).
  { subst fd. rewrite uploadImage_formData_eq, !getAll_app.
    rewrite getAll_other_parts by reflexivity.
    destruct (truthy pu), (truthy n), (truthy pb), (truthy ct); reflexivity. }
  assert (Hct : getAll "conversation_text" fd
                = (if truthy ct then [FVString ct] else [])).
  { subst fd. rewrite uploadImage_formData_eq, !getAll_app.
    rewrite getAll_other_parts by reflexivity.
    destruct (truthy pu), (truthy n), (truthy pb), (truthy ct); reflexivity. }
  split; [eexists; reflexivity|].
  rewrite Hf, Hpu, Hn, Hpb, Hct.
  repeat (split; [first [reflexivity | apply part_present_iff]|]).
  subst fd. rewrite uploadImage_formData_eq, !length_app, length_map.
  unfold filter.
  destruct (truthy pu), (truthy n), (truthy pb), (truthy ct);
    cbn [List.length app]; lia.
Qed.

(* ================================================================== *)
(** * Properties of the handlers, one activation at a time *)
(* ================================================================== *)

Lemma slice_first (A : Type) (n : nat) (l : list A) : slice 0 n l = firstn n l.
Proof. unfold slice. now rewrite Nat.sub_0_r. Qed.

(** C4: [handleFileChange] replaces the selection, whatever it was, by the
    first five entries of the event's file list: the whole list when it has
    at most five entries, exactly five files when it has more. *)
Theorem handleFileChange_first_five (net : nat -> FetchResult) (st : AppState)
  (l : list File) :
  let st' := after (handleFileChange (mkChangeEvent (JsValue l))) net st in
  st' = apply_setter (setFiles (firstn 5 l)) st
  /\ files st' = firstn 5 l
  /\ List.length (files st') = Nat.min 5 (List.length l)
  /\ (List.length l <= 5 -> files st' = l)
  /\ (5 < List.length l -> List.length (files st') = 5).
Proof.
  intro st'.
  assert (E : st' = apply_setter (setFiles (firstn 5 l)) st).
  { subst st'. unfold after, handleFileChange, Array_from.
    rewrite slice_first. reflexivity. }
  rewrite E. cbn [apply_setter files].
  repeat split.
  - apply length_firstn.
  - intro H. now apply firstn_all2.
  - intro H. rewrite length_firstn. lia.
Qed.

(** C10: [handleFileChange] ends normally on every change event and leaves a
    selection of at most five files; when the event's file list is [null] or
    [undefined] the selection is the empty one. *)
Theorem handleFileChange_total (net : nat -> FetchResult) (st : AppState)
  (event : ChangeEvent) :
  exists sel,
    exec (handleFileChange event) net 0 (start st)
    = (mkConfig (apply_setter (setFiles sel) st) [] true, Resolved tt)
    /\ sel = firstn 5 (nullish (target_files event) [])
    /\ List.length sel <= 5
    /\ files (after (handleFileChange (mkChangeEvent JsNull)) net st) = []
    /\ files (after (handleFileChange (mkChangeEvent JsUndefined)) net st) = [].
Proof.
  exists (firstn 5 (nullish (target_files event) [])).
  split; [reflexivity|]. split; [reflexivity|]. split; [|split; reflexivity].
  rewrite length_firstn. lia.
Qed.

Lemma handleSubmit_exec_no_files (net : nat -> FetchResult) (st : AppState) :
  files st = [] ->
  exec (handleSubmit st) net 0 (start st)
  = (mkConfig (apply_setter (setError (Some "Add at least one image")) st)
       [EffDom preventDefault] false,
     Resolved tt).
Proof. intro Hnone. unfold handleSubmit. rewrite Hnone. reflexivity. Qed.

(** C1: submitting with no file selected sets the validation message, which
    the dashboard shows, and ends there: no request is issued, and nothing
    else of the state changes. *)
Theorem handleSubmit_no_files (net : nat -> FetchResult) (st : AppState)
  (Hnone : files st = []) :
  exec (handleSubmit st) net 0 (start st)
  = (mkConfig (apply_setter (setError (Some "Add at least one image")) st)
       [EffDom preventDefault] false,
     Resolved tt)
  /\ requests (clog (fst (exec (handleSubmit st) net 0 (start st)))) = []
  /\ error (after (handleSubmit st) net st) = Some "Add at least one image"
  /\ (on_dashboard st = true ->
      shown_error (after (handleSubmit st) net st)
      = Some "Add at least one image").
Proof.
  pose proof (handleSubmit_exec_no_files net st Hnone) as E.
  unfold after. rewrite E. repeat split.
  unfold on_dashboard, shown_error. cbn. intro H. now rewrite H.
Qed.

Ltac case_fetch o :=
  let res := fresh "res" in
  let m := fresh "m" in
  destruct o as [res|m]; cbn;
  [ destruct (res_ok res); cbn;
    [ destruct (res_json res); cbn | destruct (res_text res); cbn ]
  | ].

Lemma fetchUploads_settles (net : nat -> FetchResult) (i : nat) :
  settles fetchUploads net i
  = match net i with
    | Rejected m => Rejected m
    | Resolved res =>
        if res_ok res then res_json res else Rejected "Failed to load uploads"
    end.
Proof.
  unfold settles, fetchUploads, fetch. cbn.
  case_fetch (net i); reflexivity.
Qed.

Lemma uploadImage_settles (net : nat -> FetchResult) (i : nat)
  (fs : list File) (pu n pb ct : string) :
  settles (uploadImage fs pu n pb ct) net i
  = match net i with
    | Rejected m => Rejected m
    | Resolved res =>
        if res_ok res then res_json res
        else match res_text res with
             | Resolved text => Rejected (or_else text "Upload failed")
             | Rejected m => Rejected m
             end
    end.
Proof.
  unfold settles, uploadImage, fetch. cbn.
  case_fetch (net i); reflexivity.
Qed.

Lemma refresh_exec (net : nat -> FetchResult) (i : nat) (c : Config) :
  exec refresh net i c
  = (do_update
       match settles fetchUploads net i with
       | Resolved data => setUploads data
       | Rejected m => setError (Some m)
       end
       (do_effect (EffFetch list_request) c),
     Resolved tt).
Proof.
  rewrite fetchUploads_settles.
  unfold refresh, fetchUploads, fetch. cbn.
  case_fetch (net i); reflexivity.
Qed.

Lemma handleSubmit_exec (net : nat -> FetchResult) (st : AppState) :
  files st <> [] ->
  exec (handleSubmit st) net 0 (start st)
  = match settles (uploadImage (files st) (profileUrl st) (notes st)
                     (profileBio st) (conversationText st)) net 0 with
    | Rejected m =>
        (mkConfig
           (apply_setter (setSubmitting false)
              (apply_setter (setError (Some m))
                 (apply_setter (setError None)
                    (apply_setter (setSubmitting true) st))))
           [EffDom preventDefault; EffFetch (create_request st)] false,
         Resolved tt)
    | Resolved _ =>
        (mkConfig
           (apply_setter (setSubmitting false)
              (apply_setter (setActiveTab "recent")
                 (apply_setter
                    match settles fetchUploads net 1 with
                    | Resolved data => setUploads data
                    | Rejected m => setError (Some m)
                    end
                    (clear_form
                       (apply_setter (setError None)
                          (apply_setter (setSubmitting true) st))))))
           [EffDom preventDefault; EffFetch (create_request st);
            EffDom formReset; EffFetch list_request] true,
         Resolved tt)
    end.
Proof.
  intro Hsome.
  assert (Hlen : (List.length (files st) =? 0) = false).
  { destruct (files st); [congruence | reflexivity]. }
  rewrite uploadImage_settles, fetchUploads_settles.
  unfold handleSubmit, uploadImage, refresh, fetchUploads, fetch.
  rewrite Hlen. cbn.
  case_fetch (net 0); try reflexivity.
  case_fetch (net 1); reflexivity.
Qed.

(** C7: [refresh] issues the list request and never throws.  When the list
    is fetched, it replaces [uploads] and nothing else changes; when
    fetching fails (the request is rejected, the status is not a 2xx, or the
    body is not JSON) the failure's message is put in the error slot and
    [uploads] is left as it was. *)
Theorem refresh_replaces_or_keeps (net : nat -> FetchResult) (st : AppState) :
  let c := fst (exec refresh net 0 (start st)) in
  snd (exec refresh net 0 (start st)) = Resolved tt
  /\ clog c = [EffFetch list_request]
  /\ match settles fetchUploads net 0 with
     | Resolved data =>
         cstate c = apply_setter (setUploads data) st
         /\ uploads (cstate c) = data
     | Rejected m =>
         cstate c = apply_setter (setError (Some m)) st
         /\ uploads (cstate c) = uploads st
         /\ error (cstate c) = Some m
     end
  /\ settles fetchUploads net 0
     = match net 0 with
       | Rejected m => Rejected m
       | Resolved res =>
           if res_ok res then res_json res
           else Rejected "Failed to load uploads"
       end.
Proof.
  cbv zeta. rewrite refresh_exec. cbn [fst snd].
  split; [reflexivity|]. split; [reflexivity|].
  split; [|apply fetchUploads_settles].
  destruct (settles fetchUploads net 0); cbn; repeat split.
Qed.

(** C2, as amended: when the create request of a submit attempt fails, the
    uploads list, the file selection, the four text fields and the active
    tab are as before, the submitting flag is down, and the error slot holds:
    after a non-2xx response, the body text when it is non-empty and
    "Upload failed" when it is empty; after a rejected request (or a body
    that could not be read), the message of that error. *)
Theorem handleSubmit_create_failed (net : nat -> FetchResult) (st : AppState)
  (Hsome : files st <> []) (Hfail : create_failed (net 0) = true) :
  let c := fst (exec (handleSubmit st) net 0 (start st)) in
  let st' := cstate c in
  uploads st' = uploads st
  /\ files st' = files st
  /\ profileUrl st' = profileUrl st
  /\ profileBio st' = profileBio st
  /\ conversationText st' = conversationText st
  /\ notes st' = notes st
  /\ activeTab st' = activeTab st
  /\ isSubmitting st' = false
  /\ error st'
     = Some match net 0 with
            | Rejected m => m
            | Resolved res =>
                match res_text res with
                | Resolved text => or_else text "Upload failed"
                | Rejected m => m
                end
            end
  /\ requests (clog c) = [create_request st].
Proof.
  cbv zeta. rewrite (handleSubmit_exec net st Hsome), uploadImage_settles.
  unfold create_failed in Hfail.
  destruct (net 0) as [res|m].
  - destruct (res_ok res); [discriminate|].
    destruct (res_text res); cbn; repeat split.
  - cbn; repeat split.
Qed.

(** C3: when the create request of a submit attempt succeeds, the attempt
    ends with the selection and the four text fields empty, the form reset,
    the list request issued after the create request, the active tab
    [recent] and the submitting flag down; [uploads] holds the list when
    that second request brought one. *)
Theorem handleSubmit_success (net : nat -> FetchResult) (st : AppState)
  (res : Response) (created : Json)
  (Hsome : files st <> []) (Hres : net 0 = Resolved res)
  (Hok : res_ok res = true) (Hjson : res_json res = Resolved created) :
  let c := fst (exec (handleSubmit st) net 0 (start st)) in
  let st' := cstate c in
  files st' = []
  /\ profileUrl st' = ""
  /\ profileBio st' = ""
  /\ conversationText st' = ""
  /\ notes st' = ""
  /\ activeTab st' = "recent"
  /\ isSubmitting st' = false
  /\ clog c = [EffDom preventDefault; EffFetch (create_request st);
               EffDom formReset; EffFetch list_request]
  /\ match settles fetchUploads net 1 with
     | Resolved data => uploads st' = data /\ error st' = None
     | Rejected m => uploads st' = uploads st /\ error st' = Some m
     end.
Proof.
  cbv zeta. rewrite (handleSubmit_exec net st Hsome), uploadImage_settles.
  rewrite Hres, Hok, Hjson.
  destruct (settles fetchUploads net 1); cbn; repeat split.
Qed.

(** C6, as amended: a submit attempt run on its own overwrites the error
    slot.  With no file it holds the validation message; otherwise it is
    null when the create request is issued, and at the end it is null or the
    message of a failure of this attempt (of the create request or of the
    list request after it), whatever it held before.  [refresh] does not
    clear the slot: when the list is fetched the slot keeps its value, when
    fetching fails the slot holds the new message. *)
Theorem error_slot_after_attempt (net : nat -> FetchResult) (st : AppState) :
  error (after (handleSubmit st) net st)
  = (if List.length (files st) =? 0 then Some "Add at least one image"
     else
       match settles (uploadImage (files st) (profileUrl st) (notes st)
                        (profileBio st) (conversationText st)) net 0 with
       | Rejected m => Some m
       | Resolved _ =>
           match settles fetchUploads net 1 with
           | Rejected m => Some m
           | Resolved _ => None
           end
       end)
  /\ (forall e : option string,
        let st0 := apply_setter (setError e) st in
        error (after (handleSubmit st0) net st0)
        = error (after (handleSubmit st) net st))
  /\ ((List.length (files st) =? 0) = false ->
      let c := fst (run (handleSubmit st) (start st)) in
      error (cstate c) = None
      /\ clog c = [EffDom preventDefault; EffFetch (create_request st)])
  /\ error (after refresh net st)
     = match settles fetchUploads net 0 with
       | Resolved _ => error st
       | Rejected m => Some m
       end.
Proof.
  assert (Hsubmit : forall s : AppState,
    error (after (handleSubmit s) net s)
    = (if List.length (files s) =? 0 then Some "Add at least one image"
       else
         match settles (uploadImage (files s) (profileUrl s) (notes s)
                          (profileBio s) (conversationText s)) net 0 with
         | Rejected m => Some m
         | Resolved _ =>
             match settles fetchUploads net 1 with
             | Rejected m => Some m
             | Resolved _ => None
             end
         end)).
  { intro s. unfold after.
    destruct (files s) as [|f fs] eqn:Hfiles.
    - now rewrite (handleSubmit_exec_no_files net s Hfiles).
    - assert (Hsome : files s <> []) by (rewrite Hfiles; discriminate).
      rewrite (handleSubmit_exec net s Hsome). rewrite Hfiles.
      cbn [List.length Nat.eqb].
      destruct (settles (uploadImage (f :: fs) (profileUrl s) (notes s)
                           (profileBio s) (conversationText s)) net 0);
        [destruct (settles fetchUploads net 1)|]; reflexivity. }
  split; [apply Hsubmit|].
  split; [intro e; cbv zeta; rewrite !Hsubmit; reflexivity|].
  split.
  - intro Hlen. cbv zeta. unfold handleSubmit. rewrite Hlen. split; reflexivity.
  - unfold after. rewrite refresh_exec.
    destruct (settles fetchUploads net 0); reflexivity.
Qed.

(* ================================================================== *)
(** * Invariants of the page *)
(* ================================================================== *)

(** Establish and preserve: a property of the mounted page that every step
    keeps holds of every reachable page. *)
Lemma steps_preserve (I : World -> Prop)
  (Hstep : forall w e w', I w -> step w e = Some w' -> I w') :
  forall es w w', I w -> steps w es = Some w' -> I w'.
Proof.
  induction es as [|e es IH]; intros w w' Hw Hrun; simpl in Hrun.
  - now inversion Hrun; subst.
  - destruct (step w e) as [w1|] eqn:E; [|discriminate].
    eapply IH; [eapply Hstep; eassumption | exact Hrun].
Qed.

Lemma reachable_invariant (I : World -> Prop)
  (Hinit : I mounted)
  (Hstep : forall w e w', I w -> step w e = Some w' -> I w') :
  forall w, reachable w -> I w.
Proof.
  intros w [es Hrun]. eapply steps_preserve; eauto.
Qed.

(** Every step is a turn of some program on the page, with one request
    possibly taken off the pending list first. *)
Lemma step_is_turn (w : World) (e : Event) (w' : World) :
  step w e = Some w' ->
  exists p pend,
    w' = turn p (mkWorld (app w) (store w) (cleanup w) pend (log w)).
Proof.
  assert (Hw : w = mkWorld (app w) (store w) (cleanup w) (pending w) (log w))
    by (destruct w; reflexivity).
  destruct e; unfold step; intro H.
  - destruct (on_dashboard (app w)); inversion H.
    exists (handleFileChange event), (pending w). now rewrite <- Hw.
  - destruct (on_dashboard (app w)); inversion H.
    exists (set (field_setter f value)), (pending w). now rewrite <- Hw.
  - destruct (existsb _ tabs); inversion H.
    exists (set (setActiveTab id)), (pending w). now rewrite <- Hw.
  - destruct (on_dashboard (app w) && negb (submit_disabled (app w)));
      inversion H.
    exists (handleSubmit (app w)), (pending w). now rewrite <- Hw.
  - destruct (nth_error (pending w) n); inversion H. eauto.
Qed.

(** ** Object URLs *)

Lemma run_fresh_mono (p : Async unit) :
  forall c, cfresh c = true -> cfresh (fst (run p c)) = true.
Proof.
  induction p as [a|m|s k IH|d k IH|r k IH]; intros c Hc; simpl; auto.
  apply IH. simpl. now rewrite Hc.
Qed.

(** A run that stores no fresh array leaves [files] alone. *)
Lemma run_files_frame (p : Async unit) :
  forall c, cfresh (fst (run p c)) = false ->
            files (cstate (fst (run p c))) = files (cstate c).
Proof.
  induction p as [a|m|s k IH|d k IH|r k IH]; intros c Hc; simpl in *; auto.
  - rewrite (IH _ Hc).
    destruct (cfresh (do_update s c)) eqn:E.
    + rewrite (run_fresh_mono k _ E) in Hc. discriminate.
    + simpl in E. apply orb_false_elim in E. destruct E as [_ E].
      destruct s; simpl in *; try reflexivity; discriminate.
  - now rewrite (IH _ Hc).
Qed.

Lemma revoke_all (l : list ObjectURL) :
  forall s, (forall u, In u (live s) -> In u l) ->
            live (forEach_revokeObjectURL l s) = []
            /\ next_url (forEach_revokeObjectURL l s) = next_url s.
Proof.
  unfold forEach_revokeObjectURL.
  induction l as [|a l IH]; intros s Hs; simpl.
  - split; [|reflexivity].
    destruct (live s) as [|u t]; [reflexivity|].
    destruct (Hs u (or_introl eq_refl)).
  - destruct (IH (revokeObjectURL s a)) as [H1 H2].
    + simpl. intros u Hu. apply filter_In in Hu. destruct Hu as [Hu Hne].
      destruct (Hs u Hu) as [->|Hin]; [|exact Hin].
      rewrite Nat.eqb_refl in Hne. discriminate.
    + split; [exact H1 | exact H2].
Qed.

Lemma map_createObjectURL_spec (fs : list File) :
  forall s,
    fst (map_createObjectURL fs s) = seq (next_url s) (List.length fs)
    /\ live (snd (map_createObjectURL fs s))
       = live s ++ seq (next_url s) (List.length fs)
    /\ next_url (snd (map_createObjectURL fs s))
       = next_url s + List.length fs.
Proof.
  induction fs as [|f fs IH]; intro s; simpl.
  - rewrite app_nil_r. repeat split; lia.
  - destruct (IH (mkUrlStore (live s ++ [next_url s]) (S (next_url s))))
      as (H1 & H2 & H3).
    destruct (map_createObjectURL fs
                (mkUrlStore (live s ++ [next_url s]) (S (next_url s))))
      as [us s2].
    simpl in *. subst us. rewrite H2, H3, <- app_assoc. repeat split; lia.
Qed.

(** What a render does to the URLs when [files] holds a fresh array. *)
Lemma commit_fresh (w : World) :
  live (store w) = cleanup w ->
  let w' := commit true w in
  live (store w') = seq (next_url (store w)) (List.length (files (app w)))
  /\ cleanup w' = live (store w')
  /\ files (app w') = files (app w)
  /\ next_url (store w') = next_url (store w) + List.length (files (app w))
  /\ pending w' = pending w
  /\ log w' = log w
  /\ isSubmitting (app w') = isSubmitting (app w).
Proof.
  intro Hlive. cbv zeta. unfold commit, files_effect, files_cleanup.
  cbn [app store cleanup pending log].
  destruct (revoke_all (cleanup w) (store w)) as [Hl Hn].
  { intros u Hu. now rewrite <- Hlive. }
  destruct (map_createObjectURL_spec (files (app w))
              (forEach_revokeObjectURL (cleanup w) (store w))) as (H1 & H2 & H3).
  destruct (map_createObjectURL (files (app w))
              (forEach_revokeObjectURL (cleanup w) (store w))) as [us s2].
  cbn [fst snd] in *. cbn. rewrite Hl, Hn in *. cbn in H2.
  subst us. rewrite H2, H3. repeat split.
Qed.

Lemma seq_fresh (n len u : nat) : In u (seq n len) -> n <= u < n + len.
Proof. intro H. apply in_seq in H. lia. Qed.

(** One turn either leaves the selection and the URLs alone, or revokes
    every URL that was live and creates one per file now selected. *)
Lemma turn_urls (p : Async unit) (w : World) :
  urls_ok w ->
  (files (app (turn p w)) = files (app w) /\ store (turn p w) = store w
   /\ cleanup (turn p w) = cleanup w)
  \/ (live (store (turn p w))
      = seq (next_url (store w)) (List.length (files (app (turn p w))))
      /\ cleanup (turn p w) = live (store (turn p w))
      /\ next_url (store (turn p w))
         = next_url (store w) + List.length (files (app (turn p w)))).
Proof.
  intros (Hlive & Hlen & Hlt). unfold turn.
  pose proof (run_files_frame p (mkConfig (app w) (log w) false)) as Hframe.
  destruct (run p (mkConfig (app w) (log w) false)) as [c s] eqn:E.
  cbn [fst] in Hframe.
  destruct (cfresh c) eqn:Hfresh.
  - right.
    match goal with |- context [commit true ?x] =>
      destruct (commit_fresh x) as (H1 & H2 & H3 & H4 & _)
    end; [exact Hlive|].
    cbn [app store] in *. rewrite H3. repeat split; assumption.
  - left. cbn. rewrite (Hframe eq_refl). repeat split.
Qed.

Lemma turn_urls_ok (p : Async unit) (w : World) :
  urls_ok w -> urls_ok (turn p w).
Proof.
  intro Hok. pose proof Hok as (Hlive & Hlen & Hlt).
  destruct (turn_urls p w Hok) as [(Hf & Hs & Hc)|(Hl & Hc & Hn)].
  - unfold urls_ok. now rewrite Hf, Hs, Hc.
  - unfold urls_ok. rewrite Hc, Hl, Hn. repeat split.
    + apply length_seq.
    + apply Forall_forall. intros u Hu. apply seq_fresh in Hu. lia.
Qed.

Lemma mounted_urls_ok : urls_ok mounted.
Proof. unfold urls_ok. cbn. repeat split. constructor. Qed.

Lemma step_urls_ok (w : World) (e : Event) (w' : World) :
  urls_ok w -> step w e = Some w' -> urls_ok w'.
Proof.
  intros Hok Hstep. destruct (step_is_turn w e w' Hstep) as (p & pend & ->).
  apply turn_urls_ok. exact Hok.
Qed.

(** C5: in every reachable page the live object URLs are as many as the
    selected files; and a step either leaves both alone, or revokes every
    URL that was live and creates one new URL per file of the new
    selection. *)
Theorem preview_urls_match_selection (w : World) (Hreach : reachable w) :
  List.length (live (store w)) = List.length (files (app w))
  /\ forall e w',
       step w e = Some w' ->
       (files (app w') = files (app w) /\ live (store w') = live (store w))
       \/ (List.length (live (store w')) = List.length (files (app w'))
           /\ (forall u, In u (live (store w)) -> ~ In u (live (store w')))
           /\ NoDup (live (store w'))).
Proof.
  assert (Hok : urls_ok w).
  { revert w Hreach. apply reachable_invariant.
    - exact mounted_urls_ok.
    - exact step_urls_ok. }
  pose proof Hok as (Hlive & Hlen & Hlt).
  split; [now rewrite Hlive|].
  intros e w' Hstep.
  destruct (step_is_turn w e w' Hstep) as (p & pend & ->).
  match goal with |- context [turn p ?x] =>
    destruct (turn_urls p x Hok) as [(Hf & Hs & _)|(Hl & _ & _)]
  end.
  - left. cbn [app store] in *. now rewrite Hf, Hs.
  - right. cbn [app store] in *. rewrite Hl. repeat split.
    + apply length_seq.
    + intros u Hu Hin. apply seq_fresh in Hin.
      rewrite Forall_forall in Hlt. specialize (Hlt u Hu). lia.
    + apply seq_NoDup.
Qed.

(** ** One create request at a time *)

Lemma posts_snoc (l : list Effect) (e : Effect) :
  posts (l ++ [e]) = posts l + (if is_post e then 1 else 0).
Proof.
  unfold posts. rewrite filter_app, length_app. simpl.
  destruct (is_post e); reflexivity.
Qed.

Lemma run_straight (p : Async unit) :
  straight p -> forall c, snd (run p c) = None.
Proof. induction 1; intro c; simpl; auto. Qed.

Lemma run_straight_posts (p : Async unit) :
  straight p -> forall c, posts (clog (fst (run p c))) = posts (clog c).
Proof.
  induction 1; intro c; simpl; auto.
  - now rewrite IHstraight.
  - rewrite IHstraight. simpl. rewrite posts_snoc. simpl. lia.
Qed.

Lemma quiet_straight (p : Async unit) : quiet p -> straight p.
Proof. induction 1; auto with client. Qed.

Lemma run_quiet (p : Async unit) :
  quiet p ->
  forall c, isSubmitting (cstate (fst (run p c))) = isSubmitting (cstate c).
Proof.
  induction 1; intro c; simpl; auto.
  - rewrite IHquiet. destruct s; simpl in *; try reflexivity; discriminate.
  - now rewrite IHquiet.
Qed.

(** A closing body either ends, or stops once more at a list request with
    the flag as it was; it issues no create request. *)
Lemma run_closing (p : Async unit) :
  closing p ->
  forall c,
    posts (clog (fst (run p c))) = posts (clog c)
    /\ (snd (run p c) = None
        \/ exists s, snd (run p c) = Some s
                     /\ submit_kind s
                     /\ isSubmitting (cstate (fst (run p c)))
                        = isSubmitting (cstate c)).
Proof.
  induction 1 as [p Hp|s k Hs Hk IH|d k Hk IH|r k Hr Hk IH]; intro c.
  - split; [now apply run_straight_posts | left; now apply run_straight].
  - simpl. destruct (IH (do_update s c)) as [Hposts [Hnone|(x & Hx & Hkind & Hflag)]].
    + split; [exact Hposts | left; exact Hnone].
    + split; [exact Hposts|]. right. exists x. repeat split; auto.
      rewrite Hflag. destruct s; simpl in *; try reflexivity; discriminate.
  - simpl. destruct (IH (do_effect (EffDom d) c))
      as [Hposts [Hnone|(x & Hx & Hkind & Hflag)]].
    + split; [|left; exact Hnone].
      rewrite Hposts. simpl. rewrite posts_snoc. simpl. lia.
    + split; [rewrite Hposts; simpl; rewrite posts_snoc; simpl; lia|].
      right. exists x. repeat split; auto.
  - simpl. split.
    + rewrite posts_snoc. simpl. rewrite Hr. lia.
    + right. eexists. split; [reflexivity|]. split; [exact Hk | reflexivity].
Qed.

Lemma commit_frame (b : bool) (w : World) :
  pending (commit b w) = pending w
  /\ log (commit b w) = log w
  /\ isSubmitting (app (commit b w)) = isSubmitting (app w).
Proof.
  destruct b; simpl; [|repeat split].
  unfold files_effect.
  destruct (map_createObjectURL (files (app (files_cleanup w)))
              (store (files_cleanup w))).
  repeat split.
Qed.

(** What a turn leaves in the pending list, the log and the flag. *)
Lemma turn_frame (p : Async unit) (w : World) :
  let r := run p (mkConfig (app w) (log w) false) in
  pending (turn p w)
  = match snd r with Some x => pending w ++ [x] | None => pending w end
  /\ log (turn p w) = clog (fst r)
  /\ isSubmitting (app (turn p w)) = isSubmitting (cstate (fst r)).
Proof.
  cbv zeta. unfold turn.
  destruct (run p (mkConfig (app w) (log w) false)) as [c s].
  match goal with |- context [commit ?b ?x] =>
    destruct (commit_frame b x) as (H1 & H2 & H3)
  end.
  rewrite H1, H2, H3. repeat split.
Qed.

Lemma pend_inv_snoc_submit (l : list Suspended) (s : Suspended) :
  pend_inv false l -> submit_kind s -> pend_inv true (l ++ [s]).
Proof.
  intros Hl Hs. remember false as b eqn:Hb.
  induction Hl as [|x l b Hx Hl IH|x l Hx Hl IH]; simpl.
  - apply pend_submit; [exact Hs | constructor].
  - apply pend_mount; [exact Hx | now apply IH].
  - discriminate.
Qed.

Lemma pend_inv_remove (l1 l2 : list Suspended) (s : Suspended) :
  forall b,
    pend_inv b (l1 ++ s :: l2) ->
    (mount_kind s /\ pend_inv b (l1 ++ l2))
    \/ (submit_kind s /\ b = true /\ pend_inv false (l1 ++ l2)).
Proof.
  induction l1 as [|a l1 IH]; intros b H; simpl in *;
    inversion H as [|x l b' Hx Hl|x l Hx Hl]; subst.
  - left. split; assumption.
  - right. repeat split; assumption.
  - destruct (IH _ Hl) as [[Hm Hp]|(Hs & Hb & Hp)].
    + left. split; [exact Hm | now apply pend_mount].
    + right. repeat split; [exact Hs | exact Hb | now apply pend_mount].
  - destruct (IH _ Hl) as [[Hm Hp]|(Hs & Hb & Hp)].
    + left. split; [exact Hm | now apply pend_submit].
    + discriminate.
Qed.

Lemma pend_inv_creates (b : bool) (l : list Suspended) :
  pend_inv b l ->
  List.length (filter is_create l) <= (if b then 1 else 0).
Proof.
  induction 1 as [|s l b [Hget _] Hl IH|s l Hs Hl IH]; simpl.
  - lia.
  - unfold is_create at 1. rewrite Hget. exact IH.
  - destruct (is_create s); simpl; lia.
Qed.

Lemma remove_nth_split (A : Type) (n : nat) :
  forall (l : list A) (x : A),
    nth_error l n = Some x ->
    exists l1 l2, l = l1 ++ x :: l2 /\ remove_nth n l = l1 ++ l2.
Proof.
  induction n as [|n IH]; intros [|a l] x H; simpl in H; try discriminate.
  - inversion H; subst. exists [], l. split; reflexivity.
  - destruct (IH l x H) as (l1 & l2 & -> & Hr).
    exists (a :: l1), l2. split; [reflexivity|].
    unfold remove_nth in *. simpl. now rewrite <- Hr.
Qed.

(** The bodies the page runs. *)

Lemma handleFileChange_quiet (event : ChangeEvent) :
  quiet (handleFileChange event).
Proof. unfold handleFileChange, set. auto with client. Qed.

Lemma field_setter_quiet (f : Field) (v : string) :
  quiet (set (field_setter f v)).
Proof. destruct f; unfold set; simpl; auto with client. Qed.

Lemma setActiveTab_quiet (id : string) : quiet (set (setActiveTab id)).
Proof. unfold set. auto with client. Qed.

Ltac close_body :=
  repeat first
    [ solve [apply closing_straight; auto 12 with client]
    | apply closing_update; [reflexivity|]
    | apply closing_call ].

Lemma refresh_suspends :
  exists k, refresh = AwaitFetch list_request k /\ forall o, quiet (k o).
Proof.
  eexists. split; [reflexivity|].
  intro o. cbn. case_fetch o; unfold set; auto 8 with client.
Qed.

Lemma handleSubmit_run (st : AppState) (c : Config) :
  (snd (run (handleSubmit st) c) = None
   /\ posts (clog (fst (run (handleSubmit st) c))) = posts (clog c)
   /\ isSubmitting (cstate (fst (run (handleSubmit st) c)))
      = isSubmitting (cstate c))
  \/ (exists s,
        snd (run (handleSubmit st) c) = Some s
        /\ submit_kind s
        /\ isSubmitting (cstate (fst (run (handleSubmit st) c))) = true
        /\ posts (clog (fst (run (handleSubmit st) c))) = S (posts (clog c))).
Proof.
  unfold handleSubmit.
  destruct (List.length (files st) =? 0).
  - left. cbn. rewrite posts_snoc. cbn. repeat split. lia.
  - right. eexists. cbn. split; [reflexivity|].
    split; [|split; [reflexivity | rewrite !posts_snoc; cbn; lia]].
    intro o. cbn. case_fetch o; close_body.
    apply closing_await; [reflexivity|].
    intro o'. cbn. case_fetch o'; close_body.
Qed.

Lemma turn_quiet (p : Async unit) (w : World) :
  quiet p ->
  pending (turn p w) = pending w
  /\ isSubmitting (app (turn p w)) = isSubmitting (app w)
  /\ posts (log (turn p w)) = posts (log w).
Proof.
  intro Hq. destruct (turn_frame p w) as (H1 & H2 & H3).
  rewrite H1, H2, H3.
  rewrite (run_straight p (quiet_straight p Hq)), (run_quiet p Hq),
    (run_straight_posts p (quiet_straight p Hq)).
  repeat split.
Qed.

Lemma mounted_submit_ok : submit_ok mounted.
Proof.
  exists false. split; [|discriminate].
  cbn. apply pend_mount; [|constructor].
  split; [reflexivity|].
  intro o. cbn. case_fetch o; unfold set; auto 8 with client.
Qed.

(** Every step keeps [submit_ok], and issues a create request only from a
    page whose submitting flag is down. *)
Lemma step_submit_ok (w : World) (e : Event) (w' : World) :
  submit_ok w -> step w e = Some w' ->
  submit_ok w'
  /\ (posts (log w') = posts (log w) \/ isSubmitting (app w) = false).
Proof.
  intros (b & Hp & Hb) Hstep. destruct e; unfold step in Hstep.
  - destruct (on_dashboard (app w)); inversion Hstep; subst w'.
    destruct (turn_quiet _ w (handleFileChange_quiet event)) as (H1 & H2 & H3).
    split; [exists b; rewrite H1, H2; auto | left; exact H3].
  - destruct (on_dashboard (app w)); inversion Hstep; subst w'.
    destruct (turn_quiet _ w (field_setter_quiet f value)) as (H1 & H2 & H3).
    split; [exists b; rewrite H1, H2; auto | left; exact H3].
  - destruct (existsb _ tabs); inversion Hstep; subst w'.
    destruct (turn_quiet _ w (setActiveTab_quiet id)) as (H1 & H2 & H3).
    split; [exists b; rewrite H1, H2; auto | left; exact H3].
  - destruct (on_dashboard (app w) && negb (submit_disabled (app w))) eqn:E;
      inversion Hstep; subst w'.
    apply andb_prop in E. destruct E as [_ E].
    unfold submit_disabled in E. apply negb_true_iff in E.
    split; [|right; exact E].
    assert (b = false) as ->.
    { destruct b; [|reflexivity]. rewrite (Hb eq_refl) in E. discriminate. }
    destruct (turn_frame (handleSubmit (app w)) w) as (H1 & H2 & H3).
    destruct (handleSubmit_run (app w) (mkConfig (app w) (log w) false))
      as [(Hnone & _ & Hflag)|(s & Hsome & Hkind & Hflag & _)].
    + exists false. rewrite H1, Hnone. split; [exact Hp | discriminate].
    + exists true. rewrite H1, H3, Hsome.
      split; [now apply pend_inv_snoc_submit | intros _; exact Hflag].
  - destruct (nth_error (pending w) n) as [s|] eqn:E; inversion Hstep; subst w'.
    destruct (remove_nth_split _ n (pending w) s E) as (l1 & l2 & Hl & Hr).
    rewrite Hr. rewrite Hl in Hp.
    set (x := mkWorld (app w) (store w) (cleanup w) (l1 ++ l2) (log w)).
    destruct (pend_inv_remove l1 l2 s b Hp) as [[[_ Hm] Hrest]|(Hs & -> & Hrest)].
    + destruct (turn_quiet (resume s o) x (Hm o)) as (H1 & H2 & H3).
      split; [exists b; rewrite H1, H2; auto | left; exact H3].
    + destruct (turn_frame (resume s o) x) as (H1 & H2 & H3).
      destruct (run_closing (resume s o) (Hs o)
                  (mkConfig (app x) (log x) false))
        as [Hposts [Hnone|(s' & Hsome & Hkind & Hflag)]].
      * split; [|left; rewrite H2; exact Hposts].
        exists false. rewrite H1, Hnone. split; [exact Hrest | discriminate].
      * split; [|left; rewrite H2; exact Hposts].
        exists true. rewrite H1, H3, Hsome, Hflag.
        split; [now apply pend_inv_snoc_submit | intros _; now apply Hb].
Qed.

(** C8: in every reachable page at most one create request is in flight;
    while one is, the submitting flag is up, the submit button is disabled,
    the page does not take a submit, and no step issues another create
    request. *)
Theorem one_create_in_flight (w : World) (Hreach : reachable w) :
  creates_in_flight w <= 1
  /\ (creates_in_flight w = 1 ->
      isSubmitting (app w) = true
      /\ submit_disabled (app w) = true
      /\ step w UserSubmits = None
      /\ forall e w', step w e = Some w' ->
                      posts (log w') = posts (log w)
                      /\ creates_in_flight w' <= 1).
Proof.
  assert (Hok : submit_ok w).
  { revert w Hreach. apply reachable_invariant.
    - exact mounted_submit_ok.
    - intros w e w' Hw Hstep. exact (proj1 (step_submit_ok w e w' Hw Hstep)). }
  pose proof Hok as (b & Hp & Hb).
  pose proof (pend_inv_creates b (pending w) Hp) as Hcount.
  unfold creates_in_flight in *.
  split; [destruct b; lia|].
  intro Hone.
  assert (Hflag : isSubmitting (app w) = true).
  { apply Hb. destruct b; [reflexivity | lia]. }
  split; [exact Hflag|]. split; [exact Hflag|].
  split.
  - unfold step, submit_disabled. rewrite Hflag.
    now rewrite andb_false_r.
  - intros e w' Hstep.
    destruct (step_submit_ok w e w' Hok Hstep) as [(b' & Hp' & _) [Hsame|Hdown]].
    + split; [exact Hsame|].
      pose proof (pend_inv_creates b' (pending w') Hp'). destruct b'; lia.
    + rewrite Hflag in Hdown. discriminate.
Qed.

(** Submitting with no file is one turn that parks nothing and issues no
    request; the message is in the page when the turn is over. *)
Lemma submit_no_files_step (w w' : World) :
  files (app w) = [] -> step w UserSubmits = Some w' ->
  pending w' = pending w
  /\ requests (log w') = requests (log w)
  /\ shown_error (app w') = Some "Add at least one image".
Proof.
  intros Hnone Hstep. unfold step in Hstep.
  destruct (on_dashboard (app w)) eqn:Hdash; [|discriminate].
  destruct (negb (submit_disabled (app w))); [|discriminate].
  inversion Hstep; subst w'. clear Hstep.
  unfold turn, handleSubmit. rewrite Hnone. cbn.
  unfold requests. rewrite flat_map_app. cbn. rewrite app_nil_r.
  repeat split. unfold shown_error. cbn.
  unfold on_dashboard in Hdash. now rewrite Hdash.
Qed.

(* ================================================================== *)
(** * Further invariants of the page *)
(* ================================================================== *)

(** ** The discipline of the handlers *)

Lemma tab_exists (id : string) :
  existsb (fun t => String.eqb (fst t) id) tabs = true -> In id (map fst tabs).
Proof.
  intro H. apply existsb_exists in H. destruct H as (t & Hin & Heq).
  apply String.eqb_eq in Heq. subst id. now apply in_map.
Qed.

Lemma state_ok_setter (s : Setter) (st : AppState) :
  page_setter s -> state_ok st -> state_ok (apply_setter s st).
Proof.
  unfold state_ok. destruct s; cbn [page_setter apply_setter files activeTab];
    intros Hs [Hf Ht]; split; assumption.
Qed.

Lemma page_setter_previews (s : Setter) (st : AppState) :
  page_setter s -> previews (apply_setter s st) = previews st.
Proof. destruct s; cbn; intro H; try reflexivity. contradiction. Qed.

Lemma requests_snoc (l : list Effect) (e : Effect) :
  requests (l ++ [e])
  = requests l ++ match e with EffFetch r => [r] | EffDom _ => [] end.
Proof.
  unfold requests. rewrite flat_map_app. cbn. now rewrite app_nil_r.
Qed.

(** A body within the discipline leaves a state and a log within it, parks
    only bodies within it, and never touches the previews. *)
Lemma run_within (p : Async unit) :
  within page_setter page_request p ->
  forall c,
    state_ok (cstate c) -> Forall page_request (requests (clog c)) ->
    state_ok (cstate (fst (run p c)))
    /\ Forall page_request (requests (clog (fst (run p c))))
    /\ previews (cstate (fst (run p c))) = previews (cstate c)
    /\ match snd (run p c) with
       | Some s => forall o, within page_setter page_request (resume s o)
       | None => True
       end.
Proof.
  induction 1 as [a|m|s k Hs Hk IH|d k Hk IH|r k Hr Hk IH];
    intros c Hst Hlog; cbn [run fst snd].
  - split; [exact Hst|]. split; [exact Hlog|]. split; [reflexivity | exact I].
  - split; [exact Hst|]. split; [exact Hlog|]. split; [reflexivity | exact I].
  - destruct (IH (do_update s c)) as (H1 & H2 & H3 & H4).
    + now apply state_ok_setter.
    + exact Hlog.
    + split; [exact H1|]. split; [exact H2|]. split; [|exact H4].
      rewrite H3. cbn. now apply page_setter_previews.
  - destruct (IH (do_effect (EffDom d) c)) as (H1 & H2 & H3 & H4).
    + exact Hst.
    + cbn. rewrite requests_snoc, app_nil_r. exact Hlog.
    + split; [exact H1|]. split; [exact H2|]. split; [exact H3 | exact H4].
  - cbn. rewrite requests_snoc. split; [exact Hst|].
    split; [|split; [reflexivity | exact Hk]].
    apply Forall_app. split; [exact Hlog | now constructor].
Qed.

Lemma commit_previews (w : World) :
  previews (app (commit true w)) = cleanup (commit true w)
  /\ files (app (commit true w)) = files (app w)
  /\ activeTab (app (commit true w)) = activeTab (app w).
Proof.
  unfold commit, files_effect.
  destruct (map_createObjectURL (files (app (files_cleanup w)))
              (store (files_cleanup w))).
  repeat split.
Qed.

Lemma turn_page_ok (p : Async unit) (w : World) :
  within page_setter page_request p -> page_ok w -> page_ok (turn p w).
Proof.
  intros Hp (Hst & Hlog & Hpend & Hprev).
  destruct (run_within p Hp (mkConfig (app w) (log w) false) Hst Hlog)
    as (H1 & H2 & H3 & H4).
  destruct (turn_frame p w) as (F1 & F2 & _).
  unfold page_ok. rewrite F1, F2.
  assert (Hpend' :
    Forall (fun s => forall o, within page_setter page_request (resume s o))
      match snd (run p (mkConfig (app w) (log w) false)) with
      | Some x => pending w ++ [x]
      | None => pending w
      end).
  { destruct (snd (run p (mkConfig (app w) (log w) false))); [|exact Hpend].
    apply Forall_app. split; [exact Hpend | now constructor]. }
  unfold turn.
  destruct (run p (mkConfig (app w) (log w) false)) as [c s].
  cbn [fst snd] in *.
  destruct (cfresh c).
  - match goal with |- context [commit true ?x] =>
      destruct (commit_previews x) as (P1 & P2 & P3)
    end.
    cbn [app] in *. unfold state_ok. rewrite P1, P2, P3.
    repeat split; try assumption; apply H1.
  - cbn. repeat split; try assumption; try apply H1.
    rewrite H3. exact Hprev.
Qed.

Ltac within_body :=
  repeat first
    [ apply within_return
    | apply within_throw
    | apply within_update; [cbn; first [exact I | lia | tauto]|]
    | apply within_call ].

Lemma refresh_within : within page_setter page_request refresh.
Proof.
  unfold refresh, fetchUploads, fetch. cbn.
  apply within_await; [now left|].
  intro o. cbn. case_fetch o; unfold set; within_body.
Qed.

Lemma handleFileChange_within (event : ChangeEvent) :
  within page_setter page_request (handleFileChange event).
Proof.
  unfold handleFileChange, set. apply within_update; [|constructor].
  cbn [page_setter]. rewrite slice_first, length_firstn. lia.
Qed.

Lemma field_setter_within (f : Field) (v : string) :
  within page_setter page_request (set (field_setter f v)).
Proof. destruct f; unfold set; cbn; within_body. Qed.

Lemma setActiveTab_within (id : string) :
  In id (map fst tabs) ->
  within page_setter page_request (set (setActiveTab id)).
Proof. intro H. unfold set. apply within_update; [exact H | constructor]. Qed.

Lemma handleSubmit_within (st : AppState) :
  List.length (files st) <= 5 ->
  within page_setter page_request (handleSubmit st).
Proof.
  intro Hcap. unfold handleSubmit.
  destruct (List.length (files st) =? 0) eqn:Hlen.
  - cbn. unfold set. within_body.
  - apply Nat.eqb_neq in Hlen.
    unfold uploadImage, refresh, fetchUploads, fetch. cbn.
    apply within_call. do 2 (apply within_update; [exact I|]).
    apply within_await.
    { right. exists (files st), (profileUrl st), (notes st), (profileBio st),
        (conversationText st). split; [reflexivity | lia]. }
    intro o. cbn. case_fetch o; within_body.
    apply within_await; [now left|].
    intro o'. cbn. case_fetch o'; within_body.
Qed.

Lemma mounted_page_ok : page_ok mounted.
Proof.
  unfold page_ok, state_ok. cbn.
  split; [split; [lia | now left]|].
  split; [constructor; [now left | constructor]|].
  split; [|reflexivity].
  constructor; [|constructor].
  intro o. cbn. case_fetch o; unfold set; within_body.
Qed.

Lemma remove_nth_Forall (A : Type) (P : A -> Prop) (n : nat) (l : list A) :
  Forall P l -> Forall P (remove_nth n l).
Proof.
  unfold remove_nth. revert l.
  induction n as [|n IH]; intros [|a l] H; cbn; try constructor;
    inversion H; subst; auto.
Qed.

Lemma step_page_ok (w : World) (e : Event) (w' : World) :
  page_ok w -> step w e = Some w' -> page_ok w'.
Proof.
  intros Hok Hstep. pose proof Hok as (Hst & Hlog & Hpend & Hprev).
  destruct e; unfold step in Hstep.
  - destruct (on_dashboard (app w)); inversion Hstep; subst w'.
    apply turn_page_ok; [apply handleFileChange_within | exact Hok].
  - destruct (on_dashboard (app w)); inversion Hstep; subst w'.
    apply turn_page_ok; [apply field_setter_within | exact Hok].
  - destruct (existsb _ tabs) eqn:E; inversion Hstep; subst w'.
    apply turn_page_ok; [|exact Hok].
    apply setActiveTab_within. now apply tab_exists.
  - destruct (on_dashboard (app w) && negb (submit_disabled (app w)));
      inversion Hstep; subst w'.
    apply turn_page_ok; [|exact Hok].
    apply handleSubmit_within. apply Hst.
  - destruct (nth_error (pending w) n) as [s|] eqn:E; inversion Hstep; subst w'.
    apply turn_page_ok.
    + rewrite Forall_forall in Hpend. apply Hpend.
      eapply nth_error_In. exact E.
    + unfold page_ok. cbn [app log pending cleanup].
      repeat split; try assumption; try apply Hst.
      now apply remove_nth_Forall.
Qed.

Lemma step_live_NoDup (w : World) (e : Event) (w' : World) :
  urls_ok w /\ NoDup (live (store w)) -> step w e = Some w' ->
  urls_ok w' /\ NoDup (live (store w')).
Proof.
  intros [Hok Hnd] Hstep. split; [eapply step_urls_ok; eassumption|].
  destruct (step_is_turn w e w' Hstep) as (p & pend & ->).
  match goal with |- context [turn p ?x] =>
    destruct (turn_urls p x Hok) as [(_ & Hs & _)|(Hl & _ & _)]
  end.
  - cbn [store] in Hs. now rewrite Hs.
  - rewrite Hl. apply seq_NoDup.
Qed.

(** What holds of every reachable page. *)
Lemma reachable_page_ok (w : World) :
  reachable w -> page_ok w /\ urls_ok w /\ NoDup (live (store w)).
Proof.
  intro Hreach. split.
  - revert w Hreach. apply reachable_invariant;
      [exact mounted_page_ok | exact step_page_ok].
  - revert w Hreach. apply reachable_invariant.
    + split; [exact mounted_urls_ok | constructor].
    + exact step_live_NoDup.
Qed.

Lemma getAll_files_formData (fs : list File) (pu n pb ct : string) :
  getAll "files" (uploadImage_formData fs pu n pb ct) = map FVFile fs.
Proof.
  rewrite uploadImage_formData_eq, !getAll_app, getAll_files_parts.
  destruct (truthy pu), (truthy n), (truthy pb), (truthy ct);
    cbn; now rewrite app_nil_r.
Qed.

(** X1: the selection never holds more than five files, on any reachable
    page, and so there are never more than five live object URLs nor more
    than five previews. *)
Theorem selection_capped (w : World) (Hreach : reachable w) :
  List.length (files (app w)) <= 5
  /\ List.length (live (store w)) <= 5
  /\ List.length (previews (app w)) <= 5.
Proof.
  destruct (reachable_page_ok w Hreach)
    as (((Hcap & _) & _ & _ & Hprev) & (Hlive & Hlen & _) & _).
  rewrite Hprev, Hlive, Hlen. repeat split; exact Hcap.
Qed.

(** X2: every request a reachable page has issued is either the list
    request (a GET without body) or a POST to the same URL whose body
    carries between one and five [files] parts; the page issues no other
    request and never an empty or oversized create. *)
Theorem page_requests (w : World) (Hreach : reachable w) :
  forall r, In r (requests (log w)) ->
    req_url r = (API_BASE ++ "/api/uploads")%string
    /\ ((req_method r = GET /\ req_body r = None)
        \/ (req_method r = POST
            /\ exists fd, req_body r = Some fd
                          /\ 1 <= List.length (getAll "files" fd) <= 5)).
Proof.
  destruct (reachable_page_ok w Hreach) as ((_ & Hlog & _) & _).
  intros r Hin. rewrite Forall_forall in Hlog.
  destruct (Hlog r Hin) as [->|(fs & pu & n & pb & ct & -> & Hlen)].
  - split; [reflexivity|]. left. split; reflexivity.
  - split; [reflexivity|]. right. split; [reflexivity|].
    eexists. split; [reflexivity|].
    now rewrite getAll_files_formData, length_map.
Qed.


(** X4: on every reachable page the previews that [DashboardView] draws are
    exactly the live object URLs, one per selected file and pairwise
    distinct: no revoked URL is ever drawn, and the image keys never
    collide. *)
Theorem previews_are_live (w : World) (Hreach : reachable w) :
  previews (app w) = live (store w)
  /\ List.length (previews (app w)) = List.length (files (app w))
  /\ NoDup (previews (app w)).
Proof.
  destruct (reachable_page_ok w Hreach)
    as ((_ & _ & _ & Hprev) & (Hlive & Hlen & _) & Hnd).
  rewrite Hprev, <- Hlive. repeat split; [now rewrite Hlive | exact Hnd].
Qed.

(** ** The submitting flag *)

Lemma run_lowering (p : Async unit) :
  lowering p ->
  forall c,
    (snd (run p c) = None
     /\ isSubmitting (cstate (fst (run p c))) = false)
    \/ (exists s, snd (run p c) = Some s
                  /\ forall o, lowering (resume s o)).
Proof.
  induction 1 as [k Hk|s k Hk IH|d k Hk IH|r k Hk IH]; intro c; cbn [run].
  - left. split.
    + apply run_straight. now apply quiet_straight.
    + now rewrite (run_quiet k Hk).
  - apply IH.
  - apply IH.
  - right. eexists. split; [reflexivity | exact Hk].
Qed.

Lemma pend_flag_snoc_submit (l : list Suspended) (s : Suspended) :
  pend_flag false l -> submit_kind s -> (forall o, lowering (resume s o)) ->
  pend_flag true (l ++ [s]).
Proof.
  intros Hl Hs Hlow. remember false as b eqn:Hb.
  induction Hl as [|x l b Hx Hl IH|x l Hx Hxl Hl IH]; cbn.
  - apply flag_submit; [exact Hs | exact Hlow | constructor].
  - apply flag_mount; [exact Hx | now apply IH].
  - discriminate.
Qed.

Lemma pend_flag_remove (l1 l2 : list Suspended) (s : Suspended) :
  forall b,
    pend_flag b (l1 ++ s :: l2) ->
    (mount_kind s /\ pend_flag b (l1 ++ l2))
    \/ (submit_kind s /\ (forall o, lowering (resume s o)) /\ b = true
        /\ pend_flag false (l1 ++ l2)).
Proof.
  induction l1 as [|a l1 IH]; intros b H; cbn in *;
    inversion H as [|x l b' Hx Hl|x l Hx Hlow Hl]; subst.
  - left. split; assumption.
  - right. repeat split; assumption.
  - destruct (IH _ Hl) as [[Hm Hp]|(Hs & Hlo & Hb & Hp)].
    + left. split; [exact Hm | now apply flag_mount].
    + right. repeat split; try assumption. now apply flag_mount.
  - destruct (IH _ Hl) as [[Hm Hp]|(Hs & Hlo & Hb & Hp)].
    + left. split; [exact Hm | now apply flag_submit].
    + discriminate.
Qed.

Lemma pend_flag_creates (b : bool) (l : list Suspended) :
  pend_flag b l ->
  List.length (filter is_create l) <= (if b then 1 else 0).
Proof.
  induction 1 as [|s l b [Hget _] Hl IH|s l Hs Hlow Hl IH]; cbn.
  - lia.
  - unfold is_create at 1. rewrite Hget. exact IH.
  - destruct (is_create s); cbn; lia.
Qed.

Ltac lower_body :=
  repeat first
    [ solve [apply lowering_now; auto with client]
    | apply lowering_update
    | apply lowering_call ].

Lemma handleSubmit_run_lowering (st : AppState) (c : Config) (s : Suspended) :
  snd (run (handleSubmit st) c) = Some s -> forall o, lowering (resume s o).
Proof.
  unfold handleSubmit.
  destruct (List.length (files st) =? 0); cbn; intro H; [discriminate|].
  inversion H; subst s. clear H.
  intro o. cbn. case_fetch o; lower_body.
  apply lowering_await. intro o'. cbn. case_fetch o'; lower_body.
Qed.

Lemma mounted_flag_ok : flag_ok mounted.
Proof.
  exists false. split; [|reflexivity].
  cbn. apply flag_mount; [|constructor].
  split; [reflexivity|].
  intro o. cbn. case_fetch o; unfold set; auto 8 with client.
Qed.

Lemma step_flag_ok (w : World) (e : Event) (w' : World) :
  flag_ok w -> step w e = Some w' -> flag_ok w'.
Proof.
  intros (b & Hp & Hb) Hstep. destruct e; unfold step in Hstep.
  - destruct (on_dashboard (app w)); inversion Hstep; subst w'.
    destruct (turn_quiet _ w (handleFileChange_quiet event)) as (H1 & H2 & _).
    exists b. now rewrite H1, H2.
  - destruct (on_dashboard (app w)); inversion Hstep; subst w'.
    destruct (turn_quiet _ w (field_setter_quiet f value)) as (H1 & H2 & _).
    exists b. now rewrite H1, H2.
  - destruct (existsb _ tabs); inversion Hstep; subst w'.
    destruct (turn_quiet _ w (setActiveTab_quiet id)) as (H1 & H2 & _).
    exists b. now rewrite H1, H2.
  - destruct (on_dashboard (app w) && negb (submit_disabled (app w))) eqn:E;
      inversion Hstep; subst w'.
    apply andb_prop in E. destruct E as [_ E].
    unfold submit_disabled in E. apply negb_true_iff in E.
    rewrite E in Hb. subst b.
    destruct (turn_frame (handleSubmit (app w)) w) as (H1 & _ & H3).
    pose proof (handleSubmit_run_lowering (app w)
                  (mkConfig (app w) (log w) false)) as Hlow.
    destruct (handleSubmit_run (app w) (mkConfig (app w) (log w) false))
      as [(Hnone & _ & Hflag)|(s & Hsome & Hkind & Hflag & _)].
    + exists false. rewrite H1, H3, Hnone, Hflag. split; [exact Hp | exact E].
    + exists true. rewrite H1, H3, Hsome, Hflag. split; [|reflexivity].
      apply pend_flag_snoc_submit; auto.
  - destruct (nth_error (pending w) n) as [s|] eqn:E; inversion Hstep; subst w'.
    destruct (remove_nth_split _ n (pending w) s E) as (l1 & l2 & Hl & Hr).
    rewrite Hr. rewrite Hl in Hp.
    set (x := mkWorld (app w) (store w) (cleanup w) (l1 ++ l2) (log w)).
    destruct (pend_flag_remove l1 l2 s b Hp)
      as [[[_ Hm] Hrest]|(Hs & Hlow & -> & Hrest)].
    + destruct (turn_quiet (resume s o) x (Hm o)) as (H1 & H2 & _).
      exists b. rewrite H1, H2. split; [exact Hrest | exact Hb].
    + destruct (turn_frame (resume s o) x) as (H1 & _ & H3).
      destruct (run_closing (resume s o) (Hs o)
                  (mkConfig (app x) (log x) false))
        as [_ [Hnone|(s' & Hsome & Hkind & Hflag)]].
      * destruct (run_lowering (resume s o) (Hlow o)
                    (mkConfig (app x) (log x) false))
          as [[_ Hdown]|(s' & Hsome & _)].
        -- exists false. rewrite H1, H3, Hnone, Hdown.
           split; [exact Hrest | reflexivity].
        -- rewrite Hnone in Hsome. discriminate.
      * destruct (run_lowering (resume s o) (Hlow o)
                    (mkConfig (app x) (log x) false))
          as [[Hnone _]|(s2 & Hsome2 & Hlow2)].
        -- rewrite Hnone in Hsome. discriminate.
        -- rewrite Hsome in Hsome2. inversion Hsome2; subst s2.
           exists true. rewrite H1, H3, Hsome, Hflag.
           split; [|exact Hb].
           apply pend_flag_snoc_submit; auto.
Qed.


(* ================================================================== *)
(** * How the handlers compose *)
(* ================================================================== *)

Lemma files_after_setFiles_nonempty (l : list File) :
  l <> [] -> firstn 5 l <> [].
Proof. destruct l; [congruence | discriminate]. Qed.

(** X6: [handleSubmit] never throws, whatever the network does, and an
    attempt that issued a create request always ends with the submitting
    flag down (the [finally] of line 69); an attempt without files leaves
    the flag as it was. *)
Theorem handleSubmit_never_throws (net : nat -> FetchResult) (st : AppState) :
  snd (exec (handleSubmit st) net 0 (start st)) = Resolved tt
  /\ isSubmitting (after (handleSubmit st) net st)
     = (if List.length (files st) =? 0 then isSubmitting st else false).
Proof.
  unfold after. destruct (files st) as [|f fs] eqn:Hfiles.
  - rewrite (handleSubmit_exec_no_files net st Hfiles). split; reflexivity.
  - assert (Hsome : files st <> []) by (rewrite Hfiles; discriminate).
    rewrite (handleSubmit_exec net st Hsome).
    destruct (settles (uploadImage (files st) (profileUrl st) (notes st)
                         (profileBio st) (conversationText st)) net 0);
      split; reflexivity.
Qed.

(** X7: the effects of a submit attempt, in order.  [preventDefault] always
    comes first; without files nothing follows; otherwise the create request
    follows, and the form reset and the list request follow it exactly when
    the create resolved.  So an attempt issues at most two requests, never
    lists before it creates, and never retries on its own. *)
Theorem handleSubmit_effects (net : nat -> FetchResult) (st : AppState) :
  clog (fst (exec (handleSubmit st) net 0 (start st)))
  = EffDom preventDefault
    :: (if List.length (files st) =? 0 then []
        else
          EffFetch (create_request st)
          :: match settles (uploadImage (files st) (profileUrl st) (notes st)
                              (profileBio st) (conversationText st)) net 0 with
             | Resolved _ => [EffDom formReset; EffFetch list_request]
             | Rejected _ => []
             end).
Proof.
  destruct (files st) as [|f fs] eqn:Hfiles.
  - now rewrite (handleSubmit_exec_no_files net st Hfiles).
  - assert (Hsome : files st <> []) by (rewrite Hfiles; discriminate).
    rewrite (handleSubmit_exec net st Hsome), Hfiles.
    cbn [List.length Nat.eqb].
    destruct (settles (uploadImage (f :: fs) (profileUrl st) (notes st)
                         (profileBio st) (conversationText st)) net 0);
      reflexivity.
Qed.

(** X8: a failed submit can be retried as it is.  After an attempt whose
    create request failed for any reason, the flag is down, the selection
    is still there, and a second attempt issues the very same create
    request as the first. *)
Theorem retry_sends_same_request (net net' : nat -> FetchResult)
  (st : AppState) (m : string)
  (Hsome : files st <> [])
  (Hfail : settles (uploadImage (files st) (profileUrl st) (notes st)
                      (profileBio st) (conversationText st)) net 0
           = Rejected m) :
  let st1 := after (handleSubmit st) net st in
  isSubmitting st1 = false
  /\ submit_disabled st1 = false
  /\ files st1 = files st
  /\ create_request st1 = create_request st
  /\ hd_error (requests (clog (fst (exec (handleSubmit st1) net' 0
                                      (start st1)))))
     = Some (create_request st).
Proof.
  cbv zeta. unfold after.
  rewrite (handleSubmit_exec net st Hsome), Hfail. cbn [fst cstate].
  set (st1 := apply_setter (setSubmitting false) _).
  assert (Hfiles1 : files st1 = files st) by reflexivity.
  assert (Hsome1 : files st1 <> []) by (rewrite Hfiles1; exact Hsome).
  split; [reflexivity|]. split; [reflexivity|]. split; [reflexivity|].
  split; [reflexivity|].
  rewrite (handleSubmit_exec net' st1 Hsome1).
  destruct (settles (uploadImage (files st1) (profileUrl st1) (notes st1)
                       (profileBio st1) (conversationText st1)) net' 0);
    reflexivity.
Qed.

(** X9: picking files and then submitting uploads the first five of them and
    no other: the create request carries exactly those, in order, under
    [files]. *)
Theorem pick_then_submit_uploads_first_five (net : nat -> FetchResult)
  (st : AppState) (l : list File) (Hl : l <> []) :
  let st1 := after (handleFileChange (mkChangeEvent (JsValue l))) net st in
  exists fd,
    hd_error (requests (clog (fst (exec (handleSubmit st1) net 0 (start st1)))))
    = Some (mkRequest POST (API_BASE ++ "/api/uploads")%string (Some fd))
    /\ getAll "files" fd = map FVFile (firstn 5 l)
    /\ List.length (getAll "files" fd) = Nat.min 5 (List.length l).
Proof.
  cbv zeta.
  set (st1 := after (handleFileChange (mkChangeEvent (JsValue l))) net st).
  assert (Hfiles1 : files st1 = firstn 5 l).
  { subst st1. unfold after, handleFileChange, Array_from.
    rewrite slice_first. reflexivity. }
  assert (Hsome1 : files st1 <> []).
  { rewrite Hfiles1. now apply files_after_setFiles_nonempty. }
  exists (uploadImage_formData (files st1) (profileUrl st1) (notes st1)
            (profileBio st1) (conversationText st1)).
  split.
  - rewrite (handleSubmit_exec net st1 Hsome1).
    destruct (settles (uploadImage (files st1) (profileUrl st1) (notes st1)
                         (profileBio st1) (conversationText st1)) net 0);
      reflexivity.
  - rewrite getAll_files_formData, Hfiles1, length_map, length_firstn.
    split; reflexivity.
Qed.


(** X11: a create that the server refuses is always reported.  After a
    non-2xx response whose body was read, a submit made from the dashboard
    draws a non-empty message: the body, or "Upload failed" when the body
    is empty. *)
Theorem refused_create_is_reported (net : nat -> FetchResult) (st : AppState)
  (res : Response) (text : string)
  (Hsome : files st <> []) (Hdash : on_dashboard st = true)
  (Hres : net 0 = Resolved res) (Hbad : res_ok res = false)
  (Htext : res_text res = Resolved text) :
  exists msg,
    shown_error (after (handleSubmit st) net st) = Some msg
    /\ msg <> ""
    /\ msg = (if truthy text then text else "Upload failed").
Proof.
  exists (or_else text "Upload failed").
  unfold after.
  rewrite (handleSubmit_exec net st Hsome), uploadImage_settles.
  rewrite Hres, Hbad, Htext. cbn [fst cstate].
  unfold shown_error, on_dashboard in *. cbn. rewrite Hdash.
  assert (Ht : truthy (or_else text "Upload failed") = true).
  { unfold or_else. destruct (truthy text) eqn:E; [exact E | reflexivity]. }
  rewrite Ht. split; [reflexivity|]. split; [|reflexivity].
  now apply truthy_nonempty.
Qed.

(** ** Events on the page *)

Lemma turn_set (s : Setter) (w : World) :
  turn (set s) w
  = commit (is_setFiles s)
      (mkWorld (apply_setter s (app w)) (store w) (cleanup w) (pending w)
         (log w)).
Proof. reflexivity. Qed.

Lemma commit_keeps (b : bool) (w : World) :
  error (app (commit b w)) = error (app w)
  /\ uploads (app (commit b w)) = uploads (app w)
  /\ files (app (commit b w)) = files (app w)
  /\ activeTab (app (commit b w)) = activeTab (app w)
  /\ profileUrl (app (commit b w)) = profileUrl (app w)
  /\ profileBio (app (commit b w)) = profileBio (app w)
  /\ conversationText (app (commit b w)) = conversationText (app w)
  /\ notes (app (commit b w)) = notes (app w).
Proof.
  destruct b; cbn; [|repeat split].
  unfold files_effect.
  destruct (map_createObjectURL (files (app (files_cleanup w)))
              (store (files_cleanup w))).
  repeat split.
Qed.

Lemma edit_is_set (w : World) (e : Event) (w' : World) :
  is_edit e = true -> step w e = Some w' ->
  exists s, w' = turn (set s) w
            /\ match s with
               | setFiles _ | setProfileUrl _ | setProfileBio _
               | setConversationText _ | setNotes _ | setActiveTab _ => True
               | _ => False
               end.
Proof.
  destruct e; cbn [is_edit]; intros Hedit Hstep; try discriminate;
    unfold step in Hstep.
  - destruct (on_dashboard (app w)); inversion Hstep.
    eexists. split; [reflexivity | exact I].
  - destruct (on_dashboard (app w)); inversion Hstep.
    exists (field_setter f value). split; [reflexivity|]. now destruct f.
  - destruct (existsb _ tabs); inversion Hstep.
    eexists. split; [reflexivity | exact I].
Qed.

Lemma user_edits_local_helper (w : World) (e : Event) (w' : World) :
  is_edit e = true -> step w e = Some w' ->
  log w' = log w
  /\ pending w' = pending w
  /\ error (app w') = error (app w)
  /\ uploads (app w') = uploads (app w)
  /\ isSubmitting (app w') = isSubmitting (app w).
Proof.
  intros Hedit Hstep.
  destruct (edit_is_set w e w' Hedit Hstep) as (s & -> & Hs).
  rewrite turn_set.
  match goal with |- context [commit ?b ?x] =>
    destruct (commit_frame b x) as (H1 & H2 & H3);
    destruct (commit_keeps b x) as (H4 & H5 & _)
  end.
  rewrite H1, H2, H3, H4, H5. cbn [app pending log].
  destruct s; try contradiction; repeat split.
Qed.

(** X12: picking files, typing in a field and switching tabs are local:
    they issue no request, park nothing, and leave the error slot, the
    uploads list and the submitting flag as they were.  In particular the
    validation message stays in the slot after files are picked, until the
    next submit. *)
Theorem user_edits_are_local (w : World) (e : Event) (w' : World)
  (Hedit : is_edit e = true) (Hstep : step w e = Some w') :
  log w' = log w
  /\ pending w' = pending w
  /\ error (app w') = error (app w)
  /\ uploads (app w') = uploads (app w)
  /\ isSubmitting (app w') = isSubmitting (app w).
Proof. exact (user_edits_local_helper w e w' Hedit Hstep). Qed.

Lemma nth_error_snoc (A : Type) (l : list A) (x : A) :
  nth_error (l ++ [x]) (List.length l) = Some x.
Proof. induction l as [|a l IH]; [reflexivity | exact IH]. Qed.

Lemma remove_nth_snoc (A : Type) (l : list A) (x : A) :
  remove_nth (List.length l) (l ++ [x]) = l.
Proof.
  unfold remove_nth. induction l as [|a l IH]; [reflexivity|].
  exact (f_equal (cons a) IH).
Qed.


(** ** The uploads list *)

Lemma turn_uploads (p : Async unit) (w : World) :
  uploads (app (turn p w))
  = uploads (cstate (fst (run p (mkConfig (app w) (log w) false)))).
Proof.
  unfold turn. destruct (run p (mkConfig (app w) (log w) false)) as [c s].
  match goal with |- context [commit ?b ?x] =>
    destruct (commit_keeps b x) as (_ & H & _)
  end.
  now rewrite H.
Qed.

Lemma refresh_get_kind :
  forall k, refresh = AwaitFetch list_request k ->
            get_kind (mkSuspended list_request k).
Proof.
  intros k Hk. inversion Hk; subst k. clear Hk.
  split; [reflexivity|].
  intros o c. cbn. unfold list_outcome.
  case_fetch o; split; reflexivity.
Qed.

Lemma handleSubmit_post_kind (st : AppState) (c : Config) :
  uploads (cstate (fst (run (handleSubmit st) c))) = uploads (cstate c)
  /\ match snd (run (handleSubmit st) c) with
     | Some s => post_kind s
     | None => True
     end.
Proof.
  unfold handleSubmit.
  destruct (List.length (files st) =? 0); cbn; [split; [reflexivity | exact I]|].
  split; [reflexivity|].
  split; [reflexivity|].
  intros o c'. cbn.
  case_fetch o; try (split; [reflexivity | exact I]).
  split; [reflexivity|].
  split; [reflexivity|].
  intros o' c''. cbn. unfold list_outcome.
  case_fetch o'; split; reflexivity.
Qed.

Lemma mounted_uploads_ok : uploads_ok mounted.
Proof.
  unfold uploads_ok. cbn. constructor; [|constructor].
  left. now apply refresh_get_kind.
Qed.

Lemma step_uploads_ok (w : World) (e : Event) (w' : World) :
  uploads_ok w -> step w e = Some w' -> uploads_ok w'.
Proof.
  unfold uploads_ok. intros Hok Hstep. destruct e; unfold step in Hstep.
  - destruct (on_dashboard (app w)); inversion Hstep; subst w'.
    destruct (turn_quiet _ w (handleFileChange_quiet event)) as (H1 & _).
    now rewrite H1.
  - destruct (on_dashboard (app w)); inversion Hstep; subst w'.
    destruct (turn_quiet _ w (field_setter_quiet f value)) as (H1 & _).
    now rewrite H1.
  - destruct (existsb _ tabs); inversion Hstep; subst w'.
    destruct (turn_quiet _ w (setActiveTab_quiet id)) as (H1 & _).
    now rewrite H1.
  - destruct (on_dashboard (app w) && negb (submit_disabled (app w)));
      inversion Hstep; subst w'.
    destruct (turn_frame (handleSubmit (app w)) w) as (H1 & _).
    destruct (handleSubmit_post_kind (app w) (mkConfig (app w) (log w) false))
      as [_ Hk].
    rewrite H1.
    destruct (snd (run (handleSubmit (app w)) (mkConfig (app w) (log w) false)));
      [|exact Hok].
    apply Forall_app. split; [exact Hok|]. constructor; [now right | constructor].
  - destruct (nth_error (pending w) n) as [s|] eqn:E; inversion Hstep; subst w'.
    set (x := mkWorld (app w) (store w) (cleanup w)
                (remove_nth n (pending w)) (log w)).
    destruct (turn_frame (resume s o) x) as (H1 & _). rewrite H1.
    assert (Hrest : Forall (fun s => get_kind s \/ post_kind s) (pending x))
      by (now apply remove_nth_Forall).
    assert (Hs : get_kind s \/ post_kind s).
    { rewrite Forall_forall in Hok. apply Hok. eapply nth_error_In. exact E. }
    destruct Hs as [[_ Hg]|[_ Hp]].
    + destruct (Hg o (mkConfig (app x) (log x) false)) as [Hnone _].
      now rewrite Hnone.
    + destruct (Hp o (mkConfig (app x) (log x) false)) as [_ Hk].
      destruct (snd (run (resume s o) (mkConfig (app x) (log x) false)));
        [|exact Hrest].
      apply Forall_app. split; [exact Hrest|].
      constructor; [now left | constructor].
Qed.

(** X14: the uploads list follows the list responses and nothing else.  On
    a reachable page a step changes [uploads] only when a list request
    settles with a 2xx response whose body is JSON, and then [uploads] is
    that body, whichever list request it answers; a create response of any
    kind, a failed list request and every user event leave it as it was. *)
Theorem uploads_follow_list_responses (w : World) (Hreach : reachable w) :
  forall e w',
    step w e = Some w' ->
    match e with
    | RequestSettles n o =>
        match nth_error (pending w) n with
        | Some s =>
            match req_method (waiting_for s), list_outcome o with
            | GET, Some data => uploads (app w') = data
            | _, _ => uploads (app w') = uploads (app w)
            end
        | None => True
        end
    | _ => uploads (app w') = uploads (app w)
    end.
Proof.
  assert (Hok : uploads_ok w).
  { revert w Hreach. apply reachable_invariant;
      [exact mounted_uploads_ok | exact step_uploads_ok]. }
  intros e w' Hstep.
  assert (Hedit : is_edit e = true -> uploads (app w') = uploads (app w)).
  { intro He. apply (user_edits_local_helper w e w' He Hstep). }
  destruct e; try exact (Hedit eq_refl); clear Hedit.
  - unfold step in Hstep.
    destruct (on_dashboard (app w) && negb (submit_disabled (app w)));
      inversion Hstep; subst w'.
    rewrite turn_uploads.
    exact (proj1 (handleSubmit_post_kind (app w) _)).
  - unfold step in Hstep.
    destruct (nth_error (pending w) n) as [s|] eqn:E; [|exact I].
    inversion Hstep; subst w'. rewrite turn_uploads. cbn [app log].
    assert (Hs : get_kind s \/ post_kind s).
    { unfold uploads_ok in Hok. rewrite Forall_forall in Hok. apply Hok.
      eapply nth_error_In. exact E. }
    destruct Hs as [[Hget Hg]|[Hpost Hp]].
    + rewrite Hget.
      destruct (Hg o (mkConfig (app w) (log w) false)) as [_ Hu].
      rewrite Hu. now destruct (list_outcome o).
    + rewrite Hpost.
      exact (proj1 (Hp o (mkConfig (app w) (log w) false))).
Qed.

(** X15: the client does not read what the create response says.  Two
    networks that both answer the create request with a 2xx response and a
    JSON body, and agree on every later answer, lead a submit attempt to
    the same state and the same effects, whatever the two bodies are. *)
Theorem create_response_body_ignored (net net' : nat -> FetchResult)
  (st : AppState) (res res' : Response) (body body' : Json)
  (Hsome : files st <> [])
  (Hres : net 0 = Resolved res) (Hres' : net' 0 = Resolved res')
  (Hok : res_ok res = true) (Hok' : res_ok res' = true)
  (Hjson : res_json res = Resolved body)
  (Hjson' : res_json res' = Resolved body')
  (Hlater : forall n, net (S n) = net' (S n)) :
  exec (handleSubmit st) net 0 (start st)
  = exec (handleSubmit st) net' 0 (start st).
Proof.
  rewrite (handleSubmit_exec net st Hsome), (handleSubmit_exec net' st Hsome).
  rewrite !uploadImage_settles, !fetchUploads_settles.
  rewrite Hres, Hres', Hok, Hok', Hjson, Hjson', (Hlater 0).
  reflexivity.
Qed.

(* ================================================================== *)
(** * Properties of [RecentView] *)
(* ================================================================== *)

Lemma list_ascii_of_string_app (a b : string) :
  list_ascii_of_string (a ++ b)
  = list_ascii_of_string a ++ list_ascii_of_string b.
Proof. induction a as [|c a IH]; cbn; [reflexivity | now rewrite IH]. Qed.

Lemma last_ascii_signal_key (t : string) (c : ascii) :
  last_ascii (t ++ "-" ++ String c "") = c.
Proof.
  unfold last_ascii. rewrite list_ascii_of_string_app. cbn.
  change ("-"%char :: [c]) with (["-"%char] ++ [c]).
  rewrite app_assoc. apply last_last.
Qed.

Lemma signal_key_neq (t t' : string) (c c' : ascii) :
  c <> c' ->
  KeyString (t ++ "-" ++ String c "") <> KeyString (t' ++ "-" ++ String c' "").
Proof.
  intros Hc Heq. inversion Heq as [H]. apply Hc.
  assert (E : last_ascii (t ++ "-" ++ String c "")
              = last_ascii (t' ++ "-" ++ String c' ""))
    by (f_equal; exact H).
  now rewrite !last_ascii_signal_key in E.
Qed.

Lemma firstn_three (A : Type) (l : list A) :
  firstn 3 l = [] /\ l = []
  \/ (exists a, firstn 3 l = [a])
  \/ (exists a b, firstn 3 l = [a; b])
  \/ (exists a b c, firstn 3 l = [a; b; c]).
Proof.
  destruct l as [|a [|b [|c l]]]; cbn.
  - left. split; reflexivity.
  - right. left. eexists. reflexivity.
  - right. right. left. do 2 eexists. reflexivity.
  - right. right. right. do 3 eexists. reflexivity.
Qed.

(** X16: the signals of a card.  Without signals (missing, null or an empty
    array) the card says "No strong signals."; otherwise it lists the first
    three signals at most, in order, and the keys of the items are pairwise
    distinct even when signal types repeat. *)
Theorem signals_section_items (upload : Upload) :
  (upload_signals upload = JsNull \/ upload_signals upload = JsUndefined
   \/ upload_signals upload = JsValue [] ->
   signals_section upload = Element "p" None [Text "No strong signals."])
  /\ forall signals,
       upload_signals upload = JsValue signals -> signals <> [] ->
       exists items,
         signals_section upload = Element "ul" None items
         /\ List.length items = Nat.min 3 (List.length signals)
         /\ map children_of items
            = map (fun signal =>
                     [Element "span" None [Text (signal_type signal)];
                      Text " · ";
                      Text (signal_severity signal)])
                (firstn 3 signals)
         /\ List.length (keys_of items) = List.length items
         /\ NoDup (keys_of items).
Proof.
  split.
  - unfold signals_section. intros [H|[H|H]]; now rewrite H.
  - intros signals Hsig Hne. unfold signals_section. rewrite Hsig.
    assert (Hlen : (List.length signals =? 0) = false)
      by (destruct signals; [congruence | reflexivity]).
    rewrite Hlen, slice_first.
    eexists. split; [reflexivity|].
    assert (Hmin : List.length (firstn 3 signals)
                   = Nat.min 3 (List.length signals)) by apply length_firstn.
    rewrite <- Hmin.
    destruct (firstn_three _ signals)
      as [[_ Hnil]|[(a & ->)|[(a & b & ->)|(a & b & c & ->)]]];
      [contradiction| | |]; cbn; repeat split.
    + repeat constructor. cbn. tauto.
    + repeat constructor; cbn; try tauto.
      intros [H|[]]. revert H. now apply signal_key_neq.
    + repeat constructor; cbn; try tauto.
      * intros [H|[H|[]]]; revert H; now apply signal_key_neq.
      * intros [H|[]]. revert H. now apply signal_key_neq.
Qed.

Lemma NoDup_map_KeyString (l : list string) :
  NoDup l -> NoDup (map KeyString l).
Proof.
  induction 1 as [|x l Hx Hl IH]; cbn; constructor; [|exact IH].
  rewrite in_map_iff. intros (y & Hy & Hin). inversion Hy; subst.
  contradiction.
Qed.

(** X17: the advice of a card.  With advice missing or null the card draws
    nothing for it; with an empty advice array it draws the number 0 (the
    value of [advice?.length && ...]); otherwise it lists the first two
    tips at most, keyed by their text, so the keys are distinct exactly
    when those tips differ. *)
Theorem advice_section_cases (upload : Upload) :
  (upload_advice upload = JsNull \/ upload_advice upload = JsUndefined ->
   advice_section upload = [])
  /\ (upload_advice upload = JsValue [] ->
      advice_section upload = [Number 0%Z])
  /\ forall advice,
       upload_advice upload = JsValue advice -> advice <> [] ->
       exists items,
         advice_section upload
         = [Element "div" None
              [Element "p" None [Text "Advice"]; Element "ul" None items]]
         /\ List.length items = Nat.min 2 (List.length advice)
         /\ keys_of items = map KeyString (firstn 2 advice)
         /\ (NoDup (keys_of items) <-> NoDup (firstn 2 advice)).
Proof.
  unfold advice_section. split; [|split].
  - intros [H|H]; now rewrite H.
  - intro H. now rewrite H.
  - intros advice Hadv Hne. rewrite Hadv.
    assert (Hlen : (List.length advice =? 0) = false)
      by (destruct advice; [congruence | reflexivity]).
    rewrite Hlen, slice_first.
    eexists. split; [reflexivity|].
    assert (Hkeys : keys_of
                      (map (fun tip => Element "li" (Some (KeyString tip))
                                         [Text tip]) (firstn 2 advice))
                    = map KeyString (firstn 2 advice)).
    { induction (firstn 2 advice) as [|t l IH]; [reflexivity|].
      cbn. now rewrite <- IH. }
    rewrite Hkeys, length_map, length_firstn.
    split; [reflexivity|]. split; [reflexivity|].
    split.
    + apply NoDup_map_inv.
    + apply NoDup_map_KeyString.
Qed.

(** A list of events the page takes leads to a reachable page. *)
Lemma page_after_reachable (es : list Event) :
  steps mounted es <> None -> reachable (page_after es).
Proof.
  intro H. unfold page_after. destruct (steps mounted es) as [w|] eqn:E.
  - exists es. exact E.
  - congruence.
Qed.

End Client.

(* ================================================================== *)
(** * Concrete runs, for the page built without [VITE_API_BASE] *)
(* ================================================================== *)

Lemma handleSubmit_no_files_witness :
  files initialState = []
  /\ requests (clog (fst (exec (handleSubmit JsUndefined initialState)
                            offline 0 (start initialState)))) = [].
Proof.
  split; [reflexivity|].
  exact (proj1 (proj2 (handleSubmit_no_files JsUndefined offline initialState
                         eq_refl))).
Defined.

Lemma handleSubmit_create_failed_witness :
  files two_images <> []
  /\ create_failed (server_error 0) = true
  /\ error (after (handleSubmit JsUndefined two_images) server_error two_images)
     = Some "disk full"
  /\ profileUrl (after (handleSubmit JsUndefined two_images) server_error
                   two_images)
     = "https://example.com/@alice".
Proof.
  assert (Hsome : files two_images <> []) by discriminate.
  split; [exact Hsome|]. split; [reflexivity|].
  destruct (handleSubmit_create_failed JsUndefined server_error two_images
              Hsome eq_refl)
    as (_ & _ & Hurl & _ & _ & _ & _ & _ & Herr & _).
  split; [exact Herr | exact Hurl].
Defined.

(** C2, the claim as stated fails: when the request is rejected there is no
    server body, the specification expects the generic fallback, and the
    error slot holds the message of the rejection instead. *)
Lemma handleSubmit_network_error_message :
  files two_images <> []
  /\ create_failed (offline 0) = true
  /\ spec_failure_message (offline 0) = "Upload failed"
  /\ error (after (handleSubmit JsUndefined two_images) offline two_images)
     = Some "Failed to fetch"
  /\ error (after (handleSubmit JsUndefined two_images) offline two_images)
     <> Some (spec_failure_message (offline 0)).
Proof.
  split; [discriminate|]. repeat (split; [reflexivity|]).
  discriminate.
Qed.

Lemma handleSubmit_success_witness :
  files two_images <> []
  /\ files (after (handleSubmit JsUndefined two_images) server_up two_images)
     = []
  /\ activeTab (after (handleSubmit JsUndefined two_images) server_up
                  two_images)
     = "recent"
  /\ uploads (after (handleSubmit JsUndefined two_images) server_up two_images)
     = JArr [JObj [("filename", JStr "a.png")]].
Proof.
  assert (Hsome : files two_images <> []) by discriminate.
  split; [exact Hsome|].
  destruct (handleSubmit_success JsUndefined server_up two_images
              (mkResponse 201 (Resolved "") (Resolved (JObj []))) (JObj [])
              Hsome eq_refl eq_refl eq_refl)
    as (Hfiles & _ & _ & _ & _ & Htab & _ & _ & Hlist).
  split; [exact Hfiles|]. split; [exact Htab|].
  exact (proj1 Hlist).
Defined.

Lemma preview_urls_match_selection_witness :
  reachable JsUndefined (page_after JsUndefined pick_seven)
  /\ List.length (live (store (page_after JsUndefined pick_seven))) = 5.
Proof.
  assert (Hreach : reachable JsUndefined (page_after JsUndefined pick_seven))
    by (exists pick_seven; reflexivity).
  split; [exact Hreach|].
  exact (eq_trans
           (proj1 (preview_urls_match_selection JsUndefined
                     (page_after JsUndefined pick_seven) Hreach))
           eq_refl).
Defined.

Lemma one_create_in_flight_witness :
  reachable JsUndefined (page_after JsUndefined pick_and_submit)
  /\ creates_in_flight (page_after JsUndefined pick_and_submit) = 1
  /\ step JsUndefined (page_after JsUndefined pick_and_submit) UserSubmits = None.
Proof.
  assert (Hreach : reachable JsUndefined (page_after JsUndefined pick_and_submit))
    by (exists pick_and_submit; reflexivity).
  split; [exact Hreach|]. split; [reflexivity|].
  destruct (one_create_in_flight JsUndefined (page_after JsUndefined pick_and_submit)
              Hreach) as [_ Hone].
  destruct (Hone eq_refl) as (_ & _ & Hrefused & _).
  exact Hrefused.
Defined.

(** C6, the claim as stated fails for [refresh]: it starts with an error in
    the slot, fetches the list, and the error is still there.  On the page:
    the list request of the mount effect fails during a submit, the submit
    and its list request succeed, nothing is in flight any more, and the
    dashboard shows the failure of the older request. *)
Lemma refresh_keeps_stale_error :
  settles (fetchUploads JsUndefined) server_up 1
  = Resolved (JArr [JObj [("filename", JStr "a.png")]])
  /\ error (after (refresh JsUndefined) (fun n => server_up (S n))
              (apply_setter (setError (Some "Failed to load uploads"))
                 initialState))
     = Some "Failed to load uploads"
  /\ option_map
       (fun w => (shown_error (app w), List.length (pending w),
                  isSubmitting (app w), uploads (app w)))
       (steps JsUndefined (mounted JsUndefined) late_mount_failure)
     = Some (Some "Failed to fetch", 0, false, JArr []).
Proof. repeat split. Qed.

(** ** Concrete runs of the further properties *)

Lemma selection_capped_witness :
  reachable JsUndefined (page_after JsUndefined pick_seven)
  /\ List.length (files (app (page_after JsUndefined pick_seven))) <= 5.
Proof.
  assert (Hreach : reachable JsUndefined (page_after JsUndefined pick_seven))
    by (apply page_after_reachable; discriminate).
  split; [exact Hreach|].
  exact (proj1 (selection_capped JsUndefined _ Hreach)).
Defined.

Lemma page_requests_witness :
  reachable JsUndefined (page_after JsUndefined pick_and_submit)
  /\ In (create_request JsUndefined
           (apply_setter (setFiles [mkFile "a.png" 10]) initialState))
       (requests (log (page_after JsUndefined pick_and_submit)))
  /\ req_url (create_request JsUndefined
                (apply_setter (setFiles [mkFile "a.png" 10]) initialState))
     = "http://127.0.0.1:8000/api/uploads".
Proof.
  assert (Hreach : reachable JsUndefined
                     (page_after JsUndefined pick_and_submit))
    by (apply page_after_reachable; discriminate).
  assert (Hin : In (create_request JsUndefined
                      (apply_setter (setFiles [mkFile "a.png" 10])
                         initialState))
                  (requests (log (page_after JsUndefined pick_and_submit))))
    by (right; left; reflexivity).
  split; [exact Hreach|]. split; [exact Hin|].
  exact (proj1 (page_requests JsUndefined _ Hreach _ Hin)).
Defined.


Lemma previews_are_live_witness :
  reachable JsUndefined (page_after JsUndefined pick_seven)
  /\ previews (app (page_after JsUndefined pick_seven))
     = live (store (page_after JsUndefined pick_seven)).
Proof.
  assert (Hreach : reachable JsUndefined (page_after JsUndefined pick_seven))
    by (apply page_after_reachable; discriminate).
  split; [exact Hreach|].
  exact (proj1 (previews_are_live JsUndefined _ Hreach)).
Defined.


Lemma retry_sends_same_request_witness :
  files two_images <> []
  /\ settles (uploadImage JsUndefined (files two_images)
                (profileUrl two_images) (notes two_images)
                (profileBio two_images) (conversationText two_images))
       server_error 0
     = Rejected "disk full"
  /\ create_request JsUndefined
       (after (handleSubmit JsUndefined two_images) server_error two_images)
     = create_request JsUndefined two_images.
Proof.
  assert (Hsome : files two_images <> []) by discriminate.
  split; [exact Hsome|]. split; [reflexivity|].
  destruct (retry_sends_same_request JsUndefined server_error server_up
              two_images "disk full" Hsome eq_refl)
    as (_ & _ & _ & Hsame & _).
  exact Hsame.
Defined.

Lemma pick_then_submit_uploads_first_five_witness :
  seven_files <> []
  /\ exists fd,
       hd_error
         (requests
            (clog (fst (exec
                          (handleSubmit JsUndefined
                             (after (handleFileChange
                                       (mkChangeEvent (JsValue seven_files)))
                                offline initialState))
                          offline 0
                          (start (after (handleFileChange
                                           (mkChangeEvent (JsValue seven_files)))
                                    offline initialState))))))
       = Some (mkRequest POST
                 (API_BASE JsUndefined ++ "/api/uploads")%string (Some fd))
       /\ List.length (getAll "files" fd) = 5.
Proof.
  assert (Hl : seven_files <> []) by discriminate.
  split; [exact Hl|].
  destruct (pick_then_submit_uploads_first_five JsUndefined offline
              initialState seven_files Hl) as (fd & Hreq & _ & Hlen).
  exists fd. split; [exact Hreq | exact Hlen].
Defined.


Lemma refused_create_is_reported_witness :
  files two_images <> []
  /\ on_dashboard two_images = true
  /\ exists msg,
       shown_error (after (handleSubmit JsUndefined two_images) server_error
                      two_images)
       = Some msg
       /\ msg <> "".
Proof.
  assert (Hsome : files two_images <> []) by discriminate.
  split; [exact Hsome|]. split; [reflexivity|].
  destruct (refused_create_is_reported JsUndefined server_error two_images
              (mkResponse 500 (Resolved "disk full")
                 (Rejected "Unexpected token d in JSON"))
              "disk full" Hsome eq_refl eq_refl eq_refl eq_refl)
    as (msg & Hshown & Hne & _).
  exists msg. split; [exact Hshown | exact Hne].
Defined.

Lemma user_edits_are_local_witness :
  step JsUndefined (mounted JsUndefined) (UserTypes FNotes "late note")
  = Some (turn (set (field_setter FNotes "late note"))
            (mounted JsUndefined))
  /\ log (turn (set (field_setter FNotes "late note"))
            (mounted JsUndefined))
     = log (mounted JsUndefined).
Proof.
  assert (Hstep : step JsUndefined (mounted JsUndefined)
                    (UserTypes FNotes "late note")
                  = Some (turn
                            (set (field_setter FNotes "late note"))
                            (mounted JsUndefined)))
    by reflexivity.
  split; [exact Hstep|].
  exact (proj1 (user_edits_are_local JsUndefined (mounted JsUndefined)
                  (UserTypes FNotes "late note") _ eq_refl Hstep)).
Defined.


Lemma uploads_follow_list_responses_witness :
  reachable JsUndefined (mounted JsUndefined)
  /\ step JsUndefined (mounted JsUndefined) list_arrives
     = Some (page_after JsUndefined [list_arrives])
  /\ uploads (app (page_after JsUndefined [list_arrives]))
     = JArr [JObj [("filename", JStr "old.png")]].
Proof.
  assert (Hreach : reachable JsUndefined (mounted JsUndefined))
    by (exists []; reflexivity).
  assert (Hstep : step JsUndefined (mounted JsUndefined) list_arrives
                  = Some (page_after JsUndefined [list_arrives]))
    by reflexivity.
  split; [exact Hreach|]. split; [exact Hstep|].
  exact (uploads_follow_list_responses JsUndefined _ Hreach _ _ Hstep).
Defined.

Lemma create_response_body_ignored_witness :
  files two_images <> []
  /\ exec (handleSubmit JsUndefined two_images) server_up 0 (start two_images)
     = exec (handleSubmit JsUndefined two_images) server_up_other_body 0
         (start two_images).
Proof.
  assert (Hsome : files two_images <> []) by discriminate.
  split; [exact Hsome|].
  exact (create_response_body_ignored JsUndefined server_up
           server_up_other_body two_images
           (mkResponse 201 (Resolved "") (Resolved (JObj [])))
           (mkResponse 200 (Resolved "") (Resolved (JArr [])))
           (JObj []) (JArr []) Hsome eq_refl eq_refl eq_refl eq_refl
           eq_refl eq_refl (fun n => eq_refl)).
Defined.
